(** * wordpress-rest-api: the request base type and its resource subtypes

    A shallow embedding of [lib/WPRequest.js] and of the URL builders that
    [tests/lib/taxonomies.js] and [tests/lib/users.js] exercise.

    JavaScript values are an inductive type, property reads and the
    coercions the code relies on ([||], [typeof], string [+], [join]) are
    functions on it, and the code itself runs in a small state-and-exception
    monad whose store holds the receiver [this], the promise counter and the
    chronological trace of what the program did to the outside world:
    requests handed to the transport, calls of the caller's callback and
    promise settlements. The shortcut [then], which is [get] followed by the
    promise library's own [then], is left out. *)

From Stdlib Require Import ZArith Ascii String.
From stdpp Require Import gmap strings list pretty.

Set Warnings "-register-all".
Open Scope string_scope.
Open Scope Z_scope.

(** ** JavaScript values *)

Module JS.

(** Function values: the library's own [noop], or a function of the caller,
    known by a name. *)
Inductive FnRef :=
| Noop
| Caller (name : string).

(** Numbers are the integers (the code computes with none; they occur as ids
    and as falsy [0]); the model is meant for those a double holds and
    prints digit by digit, below 2^53 in absolute value.
    [JError name message] is an object made by
    [new Error(message)] or by the engine ([name] is [Error] or
    [TypeError]). [JPromise p] is the promise number [p]. *)
Inductive JsVal :=
| JUndefined
| JNull
| JBool (b : bool)
| JNum (n : Z)
| JStr (s : string)
| JObject (props : gmap string JsVal)
| JError (name message : string)
| JFunction (f : FnRef)
| JPromise (p : nat).

(** The result of evaluating a piece of code: a value, or a thrown one. *)
Inductive Completion (A : Type) :=
| Normal (a : A)
| Throw (e : JsVal).
Arguments Normal {A} a.
Arguments Throw {A} e.

(** ToBoolean. *)
Definition truthy (v : JsVal) : bool :=
  match v with
  | JUndefined | JNull => false
  | JBool b => b
  | JNum n => negb (n =? 0)
  | JStr s => negb (String.eqb s EmptyString)
  | JObject _ | JError _ _ | JFunction _ | JPromise _ => true
  end.

(** [a || b] on values already evaluated. *)
Definition js_or (a b : JsVal) : JsVal := if truthy a then a else b.

Definition typeof (v : JsVal) : string :=
  match v with
  | JUndefined => "undefined"
  | JBool _ => "boolean"
  | JNum _ => "number"
  | JStr _ => "string"
  | JFunction _ => "function"
  | JNull | JObject _ | JError _ _ | JPromise _ => "object"
  end.

(** [v.name]: a TypeError on [undefined] and [null], the own property of an
    object ([undefined] when absent); the primitives carry none of the
    properties the code reads. *)
Definition get_prop (v : JsVal) (name : string) : Completion JsVal :=
  match v with
  | JUndefined =>
      Throw (JError "TypeError" ("Cannot read property '" ++ name ++ "' of undefined"))
  | JNull =>
      Throw (JError "TypeError" ("Cannot read property '" ++ name ++ "' of null"))
  | JObject props => Normal (default JUndefined (props !! name))
  | JError n m =>
      Normal (if String.eqb name "message" then JStr m
              else if String.eqb name "name" then JStr n
              else JUndefined)
  | JBool _ | JNum _ | JStr _ | JFunction _ | JPromise _ => Normal JUndefined
  end.

(** ToString, as string concatenation applies it to an operand. A plain
    object prints as ['[object Object]']; an error prints as its name, a
    colon and its message, or as the one of them that is not empty; a
    function prints as its source text, for which a short form stands
    here. *)
Definition to_string (v : JsVal) : string :=
  match v with
  | JUndefined => "undefined"
  | JNull => "null"
  | JBool true => "true"
  | JBool false => "false"
  | JNum n => pretty n
  | JStr s => s
  | JObject _ | JPromise _ => "[object Object]"
  | JError n m =>
      if String.eqb n EmptyString then m
      else if String.eqb m EmptyString then n
      else n ++ ": " ++ m
  | JFunction Noop => "function noop() {}"
  | JFunction (Caller f) => "function " ++ f ++ "() {}"
  end.

(** [a + b] where one operand is a string: every [+] of the code is one. *)
Definition js_plus (a b : JsVal) : JsVal := JStr (to_string a ++ to_string b).

(** [Array.prototype.join]: [undefined] and [null] elements print as the
    empty string, the others by ToString. *)
Definition join_elem (v : JsVal) : string :=
  match v with
  | JUndefined | JNull => EmptyString
  | _ => to_string v
  end.

Definition join (sep : string) (a : list JsVal) : string :=
  String.concat sep (map join_elem a).

(** [String.prototype.toLowerCase] on the ASCII letters; other characters
    are left as they are. This is the function of the language on strings
    of ASCII characters, the names of the HTTP methods among them; a cased
    letter outside ASCII is not lowered here. *)
Definition lower_ascii (c : ascii) : ascii :=
  let n := nat_of_ascii c in
  if ((65 <=? n) && (n <=? 90))%nat then ascii_of_nat (n + 32) else c.

Fixpoint toLowerCase (s : string) : string :=
  match s with
  | EmptyString => EmptyString
  | String c s' => String (lower_ascii c) (toLowerCase s')
  end.

(** [Array.prototype.indexOf] on an array of strings: the first index whose
    element is strictly equal to [x], or [-1]. *)
Fixpoint indexOf_from (i : Z) (a : list string) (x : string) : Z :=
  match a with
  | [] => -1
  | y :: a' => if String.eqb y x then i else indexOf_from (i + 1) a' x
  end.

Definition indexOf (a : list string) (x : string) : Z := indexOf_from 0 a x.

End JS.
Export JS.

(** ** The transport adapter (superagent)

    The request builder of the external HTTP client: [agent.get(url)] and
    its siblings make a request, [.set] adds a header, [.send] attaches the
    payload. Submitting it ([.end]) is an event of the trace below. The
    client is not part of this repository. Its constructors are total
    here; the client itself accepts a URL that is a string, which is why
    the statements below that speak of a submitted request take one. *)

Module Agent.

Inductive Method := GET | POST | PUT | DELETE | HEAD.

Record Request := mkRequest {
  method : Method;
  url : JsVal;
  header : gmap string JsVal;
  data : option JsVal
}.

Definition request (m : Method) (u : JsVal) : Request :=
  {| method := m; url := u; header := ∅; data := None |}.

Definition get := request GET.
Definition post := request POST.
Definition put := request PUT.
Definition del := request DELETE.
Definition head := request HEAD.

Definition set (field : string) (val : JsVal) (r : Request) : Request :=
  {| method := method r; url := url r;
     header := <[field := val]> (header r); data := data r |}.

(** [.type(t)] as [send] uses it: only when no [Content-Type] is set yet. *)
Definition default_type (t : string) (r : Request) : Request :=
  match header r !! "Content-Type" with
  | Some _ => r
  | None => set "Content-Type" (JStr t) r
  end.

(** [.send(d)] on a request without a payload: the payload is stored, and
    the content type defaults to JSON for an object and to a form for a
    string. *)
Definition send (d : JsVal) (r : Request) : Request :=
  let r' := {| method := method r; url := url r; header := header r; data := Some d |} in
  match d with
  | JObject _ | JError _ _ | JPromise _ => default_type "application/json" r'
  | JStr _ => default_type "application/x-www-form-urlencoded" r'
  | JUndefined | JNull | JBool _ | JNum _ | JFunction _ => r'
  end.

End Agent.

(** ** The store and the monad of the embedding *)

(** A transform of [invokeAndPromisify]: a pure function of the response
    that may throw. *)
Definition Transform := JsVal → Completion JsVal.

(** The closure that [invokeAndPromisify] passes to [request.end]: it
    captures the promise it settles, the callback and the transform. *)
Record Handler := mkHandler {
  h_promise : nat;
  h_callback : JsVal;
  h_transform : Transform
}.

Inductive Event :=
| EvEnd (req : Agent.Request) (h : Handler)  (* request.end(h): the request is submitted *)
| EvCall (f : string) (args : list JsVal)    (* a function of the caller is called *)
| EvResolve (p : nat) (v : JsVal)            (* resolve(v) of promise p *)
| EvReject (p : nat) (reason : JsVal).       (* reject(reason) of promise p *)

(** [this] is the receiver, [next_promise] the number of promises made so
    far, [trace] the events in the order they happened. *)
Record Store (T : Type) := mkStore {
  this : T;
  next_promise : nat;
  trace : list Event
}.
Arguments mkStore {T} _ _ _.
Arguments this {T} _.
Arguments next_promise {T} _.
Arguments trace {T} _.

Definition Js (T A : Type) : Type := Store T → Completion A * Store T.

Section Monad.
Context {T : Type}.

Definition ret {A} (a : A) : Js T A := λ s, (Normal a, s).

Definition throw {A} (e : JsVal) : Js T A := λ s, (Throw e, s).

Definition bind {A B} (c : Js T A) (k : A → Js T B) : Js T B :=
  λ s, match c s with
       | (Normal a, s') => k a s'
       | (Throw e, s') => (Throw e, s')
       end.

(** A pure computation that may throw. *)
Definition lift {A} (c : Completion A) : Js T A := λ s, (c, s).

(** Read a field of [this]. *)
Definition read {A} (field : T → A) : Js T A := λ s, (Normal (field (this s)), s).

Definition emit (e : Event) : Js T unit :=
  λ s, (Normal tt, mkStore (this s) (next_promise s) (trace s ++ [e])).

Definition fresh_promise : Js T nat :=
  λ s, (Normal (next_promise s), mkStore (this s) (S (next_promise s)) (trace s)).

(** [try { c } catch (e) { h(e) }]. *)
Definition catch {A} (c : Js T A) (h : JsVal → Js T A) : Js T A :=
  λ s, match c s with
       | (Normal a, s') => (Normal a, s')
       | (Throw e, s') => h e s'
       end.
End Monad.

Notation "x <- c ;; k" := (bind c (λ x, k))
  (at level 100, c at next level, right associativity).
Notation "c ;; k" := (bind c (λ _, k))
  (at level 100, right associativity).

(** *** Promises and calls *)

Section Runtime.
Context {T : Type}.

Definition resolve (p : nat) (v : JsVal) : Js T unit := emit (EvResolve p v).
Definition reject (p : nat) (reason : JsVal) : Js T unit := emit (EvReject p reason).

(** [new Promise(executor)]: the executor runs at once with the new
    promise's [resolve] and [reject]; what it throws rejects the promise. *)
Definition new_Promise (executor : nat → Js T unit) : Js T JsVal :=
  p <- fresh_promise ;;
  catch (executor p) (λ e, reject p e) ;;
  ret (JPromise p).

(** [f(args)] for a function value: [noop] does nothing, a function of
    the caller is recorded and returns [undefined]. Calling what is not a
    function is a TypeError. A function of the caller is taken to return:
    what it throws, or does on its own account, is the caller's and is not
    part of the trace. *)
Definition call (f : JsVal) (args : list JsVal) : Js T JsVal :=
  match f with
  | JFunction Noop => ret JUndefined
  | JFunction (Caller name) => emit (EvCall name args) ;; ret JUndefined
  | _ => throw (JError "TypeError" (typeof f ++ " is not a function"))
  end.
End Runtime.

(** ** lib/WPRequest.js *)

Module WPRequest.

(** The properties the constructor gives every request object. *)
Record Fields := mkFields {
  _options : JsVal;
  _supportedMethods : list string
}.

(** [function WPRequest( options )]. *)
Definition WPRequest (options : JsVal) : Fields :=
  {| _options := js_or options (JObject ∅);
     _supportedMethods := ["head"; "get"; "put"; "post"; "patch"; "delete"] |}.

(** A request class: an object type [T] that carries the constructor's
    fields and answers [generateRequestUri] (the prototype's, or the
    override of a module for one endpoint). *)
Class RequestClass (T : Type) := {
  fields : T → Fields;
  generateRequestUri : T → Completion JsVal
}.

(** *** Helpers *)

Definition noop : JsVal := JFunction Noop.

Definition identity : Transform := λ value, Normal value.

Definition ensureFunction (fn : JsVal) : JsVal :=
  if String.eqb (typeof fn) "function" then fn else noop.

Definition returnBody : Transform := λ result, get_prop result "body".

Definition returnHeaders : Transform := λ result, get_prop result "headers".

(** The six verb methods, and the name each passes to
    [_checkMethodSupport]. *)
Inductive Verb := Get | Post | Put | Patch | Delete | Head.

#[global] Instance Verb_eq_dec : EqDecision Verb.
Proof. solve_decision. Defined.

Definition verb_name (v : Verb) : string :=
  match v with
  | Get => "get" | Post => "post" | Put => "put"
  | Patch => "patch" | Delete => "delete" | Head => "head"
  end.

Section Methods.
Context {T : Type} `{RequestClass T}.

(** [err || result.error]: the property is read only when [err] is falsy. *)
Definition err_or_result_error (err result : JsVal) : Js T JsVal :=
  if truthy err then ret err else lift (get_prop result "error").

(** The function [invokeAndPromisify] passes to [request.end]; the transport
    calls it with [(err, result)] when the request is over. *)
Definition end_callback (h : Handler) (err result : JsVal) : Js T unit :=
  v <- lift (h_transform h result) ;;
  call (h_callback h) [err; v] ;;
  c <- err_or_result_error err result ;;
  if truthy c then
    reason <- err_or_result_error err result ;;
    reject (h_promise h) reason
  else
    v' <- lift (h_transform h result) ;;
    resolve (h_promise h) v'.

Definition invokeAndPromisify
    (request : Agent.Request) (callback : JsVal) (transform : option Transform)
  : Js T JsVal :=
  let callback := ensureFunction callback in
  let transform := default identity transform in
  new_Promise (λ p, emit (EvEnd request (mkHandler p callback transform))).

(** *** Prototype methods *)

Definition _checkMethodSupport (method : string) : Js T bool :=
  supported <- read (λ this, _supportedMethods (fields this)) ;;
  if indexOf supported (toLowerCase method) =? -1 then
    throw (JError "Error"
             ("Unsupported method; supported methods are: " ++
              String.concat ", " supported))
  else ret true.

(** [this.generateRequestUri()], dispatched on the class of [this]. *)
Definition this_generateRequestUri : Js T JsVal :=
  uri <- read generateRequestUri ;; lift uri.

(** [this._options.name]. *)
Definition this_options (name : string) : Js T JsVal :=
  options <- read (λ this, _options (fields this)) ;; lift (get_prop options name).

(** *** HTTP methods *)

Definition get (callback : JsVal) : Js T JsVal :=
  _checkMethodSupport "get" ;;
  url <- this_generateRequestUri ;;
  invokeAndPromisify (Agent.get url) callback (Some returnBody).

Definition post (data callback : JsVal) : Js T JsVal :=
  _checkMethodSupport "post" ;;
  url <- this_generateRequestUri ;;
  username <- this_options "username" ;;
  password <- this_options "password" ;;
  let auth := js_plus (js_plus username (JStr ":")) password in
  let data := js_or data (JObject ∅) in
  let request := Agent.send data (Agent.set "Authorization" auth (Agent.post url)) in
  invokeAndPromisify request callback (Some returnBody).

Definition put (data callback : JsVal) : Js T JsVal :=
  _checkMethodSupport "put" ;;
  url <- this_generateRequestUri ;;
  username <- this_options "username" ;;
  password <- this_options "password" ;;
  let auth := js_plus (js_plus username (JStr ":")) password in
  let data := js_or data (JObject ∅) in
  let request := Agent.send data (Agent.set "Authorization" auth (Agent.put url)) in
  invokeAndPromisify request callback (Some returnBody).

(** The body ends without a [return]: the call evaluates to [undefined]. *)
Definition patch (callback : JsVal) : Js T JsVal :=
  _checkMethodSupport "patch" ;;
  let callback := ensureFunction callback in
  ret JUndefined.

Definition delete (callback : JsVal) : Js T JsVal :=
  _checkMethodSupport "delete" ;;
  url <- this_generateRequestUri ;;
  username <- this_options "username" ;;
  password <- this_options "password" ;;
  let auth := js_plus (js_plus username (JStr ":")) password in
  let request := Agent.set "Authorization" auth (Agent.del url) in
  invokeAndPromisify request callback (Some returnBody).

Definition head (callback : JsVal) : Js T JsVal :=
  _checkMethodSupport "head" ;;
  url <- this_generateRequestUri ;;
  invokeAndPromisify (Agent.head url) callback (Some returnHeaders).

(** The six verb methods under one name, to speak of all of them at once;
    [data] is the payload of [post] and [put] and is ignored by the others. *)
Definition invoke (v : Verb) (data callback : JsVal) : Js T JsVal :=
  match v with
  | Get => get callback
  | Post => post data callback
  | Put => put data callback
  | Patch => patch callback
  | Delete => delete callback
  | Head => head callback
  end.

(** The promise [source.then( onFulfilled )] of the promise library, known by
    the promise it is chained to and the function given to it. *)
Record Chained := mkChained {
  source : JsVal;
  onFulfilled : JsVal
}.

(** [WPRequest.prototype.then] ([then] is a keyword here): [this.get()] is
    called without an argument, and the callback goes to the [then] of the
    promise it returns. *)
Definition then_ (callback : JsVal) : Js T Chained :=
  promise <- get JUndefined ;;
  ret (mkChained promise callback).

End Methods.

(** [WPRequest.prototype.generateRequestUri]. *)
Definition prototype_generateRequestUri (this : Fields) : Completion JsVal :=
  get_prop (_options this) "endpoint".

#[global] Instance WPRequest_class : RequestClass Fields :=
  {| fields := λ this, this; generateRequestUri := prototype_generateRequestUri |}.

End WPRequest.

(** ** The resource subtypes

    [lib/taxonomies.js] and [lib/users.js] are known through their tests
    and their description only. Their fluent setters mutate [this] and
    return it; here they are functions from the object before the call to
    the object after it. *)

Definition is_null (v : JsVal) : bool :=
  match v with
  | JNull => true
  | _ => false
  end.

(** [a.push(v)] when [v !== null]. *)
Definition push_unless_null (v : JsVal) (a : list JsVal) : list JsVal :=
  if is_null v then a else a ++ [v].

(** [this._options.endpoint + path.join( '/' )]. *)
Definition endpoint_plus_path (options : JsVal) (path : list JsVal) : Completion JsVal :=
  match get_prop options "endpoint" with
  | Normal endpoint => Normal (js_plus endpoint (JStr (join "/" path)))
  | Throw e => Throw e
  end.

Module Taxonomies.

Record TaxonomiesRequest := mkTaxonomiesRequest {
  base : WPRequest.Fields;
  _id : JsVal;
  _action : JsVal;
  _actionId : JsVal
}.

(** Modelled from the spec: the constructor of [lib/taxonomies.js], which
    is not among the sources. It stores the configuration as the base
    constructor does, sets [_id], [_action] and [_actionId] to [null] and
    narrows the permitted verbs to [head] and [get] (the tests fix the set,
    not its order). *)
Definition new (options : JsVal) : TaxonomiesRequest :=
  {| base := {| WPRequest._options := js_or options (JObject ∅);
                WPRequest._supportedMethods := ["head"; "get"] |};
     _id := JNull; _action := JNull; _actionId := JNull |}.

(** The tests' [taxonomies._options = { ... }]. *)
Definition set_options (options : JsVal) (this : TaxonomiesRequest) : TaxonomiesRequest :=
  {| base := {| WPRequest._options := options;
                WPRequest._supportedMethods := WPRequest._supportedMethods (base this) |};
     _id := _id this; _action := _action this; _actionId := _actionId this |}.

(** Modelled from the spec: [TaxonomiesRequest.prototype.id], not among the
    sources. It sets the resource identifier; once [terms()] has set the
    action, a second call targets the item of the sub-collection instead.
    One field is written per call. *)
Definition id (x : JsVal) (this : TaxonomiesRequest) : TaxonomiesRequest :=
  if is_null (_action this) then
    {| base := base this; _id := x; _action := _action this; _actionId := _actionId this |}
  else
    {| base := base this; _id := _id this; _action := _action this; _actionId := x |}.

(** Modelled from the spec: [TaxonomiesRequest.prototype.terms], not among
    the sources. It sets the action field to ['terms']. *)
Definition terms (this : TaxonomiesRequest) : TaxonomiesRequest :=
  {| base := base this; _id := _id this; _action := JStr "terms"; _actionId := _actionId this |}.

(** Modelled from the spec: the [generateRequestUri] override of
    [lib/taxonomies.js], not among the sources. The path is the resource
    name, then the id, then the action and, under the action, its id, each
    only when its field is not [null], joined by ['/']. The tests configure
    the endpoint ['/wp-json/'] and expect ['/wp-json/taxonomies']: the
    slash between endpoint and resource name is the endpoint's own. *)
Definition generateRequestUri (this : TaxonomiesRequest) : Completion JsVal :=
  let path := [JStr "taxonomies"] in
  let path := push_unless_null (_id this) path in
  let path :=
    if is_null (_action this) then path
    else push_unless_null (_actionId this) (path ++ [_action this]) in
  endpoint_plus_path (WPRequest._options (base this)) path.

#[global] Instance Taxonomies_class : WPRequest.RequestClass TaxonomiesRequest :=
  {| WPRequest.fields := base; WPRequest.generateRequestUri := generateRequestUri |}.

End Taxonomies.

Module Users.

Record UsersRequest := mkUsersRequest {
  base : WPRequest.Fields;
  _id : JsVal
}.

(** Modelled from the spec: the constructor of [lib/users.js], which is not
    among the sources. It stores the configuration as the base constructor
    does, sets [_id] (the one field the tests initialise) to [null] and
    narrows the permitted verbs to [head], [get] and [post]. *)
Definition new (options : JsVal) : UsersRequest :=
  {| base := {| WPRequest._options := js_or options (JObject ∅);
                WPRequest._supportedMethods := ["head"; "get"; "post"] |};
     _id := JNull |}.

(** The tests' [users._options = { ... }]. *)
Definition set_options (options : JsVal) (this : UsersRequest) : UsersRequest :=
  {| base := {| WPRequest._options := options;
                WPRequest._supportedMethods := WPRequest._supportedMethods (base this) |};
     _id := _id this |}.

(** Modelled from the spec: [UsersRequest.prototype.id], not among the
    sources. It sets the resource identifier. *)
Definition id (x : JsVal) (this : UsersRequest) : UsersRequest :=
  {| base := base this; _id := x |}.

(** Modelled from the spec: [UsersRequest.prototype.me], not among the
    sources. The shortcut for the current user takes the place of a numeric
    id: it writes ['me'] where [id] writes its argument, so that an object
    holds the one or the other. *)
Definition me (this : UsersRequest) : UsersRequest :=
  {| base := base this; _id := JStr "me" |}.

(** Modelled from the spec: the [generateRequestUri] override of
    [lib/users.js], not among the sources: the resource name, then the id
    or ['me'] when the field is not [null]. *)
Definition generateRequestUri (this : UsersRequest) : Completion JsVal :=
  let path := [JStr "users"] in
  let path := push_unless_null (_id this) path in
  endpoint_plus_path (WPRequest._options (base this)) path.

#[global] Instance Users_class : WPRequest.RequestClass UsersRequest :=
  {| WPRequest.fields := base; WPRequest.generateRequestUri := generateRequestUri |}.

(** A chain of fluent calls on a users object. *)
Inductive Setter :=
| CallId (x : JsVal)
| CallMe.

Definition apply_setter (this : UsersRequest) (c : Setter) : UsersRequest :=
  match c with
  | CallId x => id x this
  | CallMe => me this
  end.

Definition chain (calls : list Setter) (this : UsersRequest) : UsersRequest :=
  fold_left apply_setter calls this.

End Users.

(** ** Vocabulary of the statements *)

(** [undefined] and [null]: the values a property read throws on. *)
Definition nullish (v : JsVal) : bool :=
  match v with
  | JUndefined | JNull => true
  | _ => false
  end.

(** The store after more events. *)
Definition after {T} (s : Store T) (evs : list Event) : Store T :=
  mkStore (this s) (next_promise s) (trace s ++ evs).

(** The store after one more promise, number [next_promise s], and events. *)
Definition after_promise {T} (s : Store T) (evs : list Event) : Store T :=
  mkStore (this s) (S (next_promise s)) (trace s ++ evs).

(** What calling the callback argument of a verb with [args] leaves in the
    trace: one call when the caller passed a function, nothing when the
    argument was omitted or is no function. *)
Definition callback_calls (callback : JsVal) (args : list JsVal) : list Event :=
  match callback with
  | JFunction (Caller f) => [EvCall f args]
  | _ => []
  end.

(** The transport answered without an error: [err] is falsy and the
    response has no truthy [error] field. *)
Definition response_ok (err result : JsVal) : bool :=
  negb (truthy err) &&
  match get_prop result "error" with
  | Normal e => negb (truthy e)
  | Throw _ => false
  end.

(** The transform each verb passes to [invokeAndPromisify]; [patch] calls
    no [invokeAndPromisify]. *)
Definition verb_transform (v : WPRequest.Verb) : option Transform :=
  match v with
  | WPRequest.Patch => None
  | WPRequest.Head => Some WPRequest.returnHeaders
  | _ => Some WPRequest.returnBody
  end.

(** The request each verb hands to [invokeAndPromisify], given the URI and
    the credentials it has read; [patch] builds none. *)
Definition verb_request (v : WPRequest.Verb) (url username password data : JsVal)
  : option Agent.Request :=
  let auth := js_plus (js_plus username (JStr ":")) password in
  match v with
  | WPRequest.Patch => None
  | WPRequest.Get => Some (Agent.get url)
  | WPRequest.Head => Some (Agent.head url)
  | WPRequest.Post =>
      Some (Agent.send (js_or data (JObject ∅))
              (Agent.set "Authorization" auth (Agent.post url)))
  | WPRequest.Put =>
      Some (Agent.send (js_or data (JObject ∅))
              (Agent.set "Authorization" auth (Agent.put url)))
  | WPRequest.Delete => Some (Agent.set "Authorization" auth (Agent.del url))
  end.

(** The configuration without its credentials. *)
Definition strip_credentials (options : gmap string JsVal) : gmap string JsVal :=
  delete "username" (delete "password" options).

(** The verbs that send the credentials. *)
Definition authenticated (v : WPRequest.Verb) : bool :=
  match v with
  | WPRequest.Post | WPRequest.Put | WPRequest.Delete => true
  | _ => false
  end.

(** The response field a verb's transform reads. *)
Definition verb_field (v : WPRequest.Verb) : string :=
  if v is WPRequest.Head then "headers" else "body".

(** One path segment of a URI: nothing for a [null] field, otherwise a
    slash and the field as [join] prints it. *)
Definition segment (v : JsVal) : string :=
  if is_null v then EmptyString else "/" ++ join_elem v.

(** The HTTP method of the request a verb makes ([delete] goes through
    [agent.del]); [patch] makes none. *)
Definition verb_method (v : WPRequest.Verb) : option Agent.Method :=
  match v with
  | WPRequest.Get => Some Agent.GET
  | WPRequest.Post => Some Agent.POST
  | WPRequest.Put => Some Agent.PUT
  | WPRequest.Delete => Some Agent.DELETE
  | WPRequest.Head => Some Agent.HEAD
  | WPRequest.Patch => None
  end.

(** The verbs that take a [data] argument. *)
Definition takes_data (v : WPRequest.Verb) : bool :=
  match v with
  | WPRequest.Post | WPRequest.Put => true
  | _ => false
  end.

(** An event that is a call of a function of the caller. *)
Definition is_call (e : Event) : bool :=
  match e with
  | EvCall _ _ => true
  | _ => false
  end.



(** The values that [to_string] prints as the language does: [undefined],
    [null], the booleans, the strings, and the integers below 2^53 in
    absolute value. *)
Definition prints_exactly (v : JsVal) : bool :=
  match v with
  | JUndefined | JNull | JBool _ | JStr _ => true
  | JNum n => Z.abs n <? 2 ^ 53
  | JObject _ | JError _ _ | JFunction _ | JPromise _ => false
  end.

(** *** HTTP Basic credentials (RFC 7617, with the base64 of RFC 4648) *)

Definition base64_alphabet : string :=
  "ABCDEFGHIJKLMNOPQRSTUVWXYZabcdefghijklmnopqrstuvwxyz0123456789+/".

Definition base64_digit (n : N) : ascii :=
  default "="%char (String.get (N.to_nat n) base64_alphabet).

(** Three bytes make four digits; one or two bytes left over are padded. *)
Fixpoint base64_bytes (l : list N) : string :=
  match l with
  | [] => EmptyString
  | [a] =>
      let n := (a * 65536)%N in
      String (base64_digit (n / 262144))
        (String (base64_digit ((n / 4096) mod 64)) "==")
  | [a; b] =>
      let n := (a * 65536 + b * 256)%N in
      String (base64_digit (n / 262144))
        (String (base64_digit ((n / 4096) mod 64))
           (String (base64_digit ((n / 64) mod 64)) "="))
  | a :: b :: c :: l' =>
      let n := (a * 65536 + b * 256 + c)%N in
      String (base64_digit (n / 262144))
        (String (base64_digit ((n / 4096) mod 64))
           (String (base64_digit ((n / 64) mod 64))
              (String (base64_digit (n mod 64)) (base64_bytes l'))))
  end%N.

Definition base64 (s : string) : string :=
  base64_bytes (map N_of_ascii (list_ascii_of_string s)).

(** The value of an [Authorization] header of the Basic scheme. *)
Definition basic_credentials (username password : string) : string :=
  "Basic " ++ base64 (username ++ ":" ++ password).

(** ** Concrete objects *)

Definition example_options : JsVal :=
  JObject (<["endpoint" := JStr "/wp-json/"]>
          (<["username" := JStr "admin"]>
          (<["password" := JStr "secret"]> ∅))).

Definition example_store : Store WPRequest.Fields :=
  mkStore (WPRequest.WPRequest example_options) 0 [].

Definition example_callback : JsVal := JFunction (Caller "done").

(** What [get] on the example hands to the transport: the request, and
    the handler that settles promise 0. *)
Definition example_get : Agent.Request := Agent.get (JStr "/wp-json/").

Definition example_handler : Handler :=
  mkHandler 0 example_callback WPRequest.returnBody.

(** What [post] without data hands to the transport on the example. *)
Definition example_post : Agent.Request :=
  Agent.mkRequest Agent.POST (JStr "/wp-json/")
    (<["Content-Type" := JStr "application/json"]>
       {["Authorization" := JStr "admin:secret"]})
    (Some (JObject ∅)).

(** The response of a server that answers 404: the transport reports it in
    the [error] field of the response, with [err] left [null]. *)
Definition not_found_response : JsVal :=
  JObject (<["error" := JError "Error" "Not Found"]>
          (<["body" := JStr "missing"]> ∅)).

(** The objects of the tests: made without options, then given the endpoint. *)
Definition test_options : JsVal :=
  JObject (<["endpoint" := JStr "/wp-json/"]> ∅).

Definition test_taxonomies : Taxonomies.TaxonomiesRequest :=
  Taxonomies.set_options test_options (Taxonomies.new JUndefined).

Definition test_users : Users.UsersRequest :=
  Users.set_options test_options (Users.new JUndefined).

(** An object whose permitted verbs have been narrowed to the reading ones. *)
Definition readonly_store : Store WPRequest.Fields :=
  mkStore (WPRequest.mkFields example_options ["head"; "get"]) 0 [].

(** An object whose permitted verbs were written in capitals. *)
Definition shouting_store : Store WPRequest.Fields :=
  mkStore (WPRequest.mkFields example_options ["GET"; "Head"]) 0 [].

(** An object whose [_options] were set to [null] from outside. *)
Definition null_options_store : Store WPRequest.Fields :=
  mkStore (WPRequest.mkFields JNull ["head"; "get"; "put"; "post"; "patch"; "delete"]) 0 [].

(** * Properties *)

(** ** Values and arrays *)

Lemma indexOf_from_absent (a : list string) (x : string) (i : Z) :
  0 ≤ i → indexOf_from i a x = -1 ↔ x ∉ a.
Proof.
  revert i. induction a as [|y a IH]; intros i Hi; simpl.
  - split; [intros _; apply not_elem_of_nil | done].
  - destruct (String.eqb_spec y x) as [->|Hne].
    + split; [lia | intros Hn; exfalso; apply Hn; left].
    + rewrite (IH (i + 1)) by lia. rewrite not_elem_of_cons.
      split; [intros Hx; split; [congruence | done] | by intros [_ Hx]].
Qed.

Lemma indexOf_absent (a : list string) (x : string) :
  indexOf a x = -1 ↔ x ∉ a.
Proof. apply indexOf_from_absent. lia. Qed.

Lemma indexOf_test (a : list string) (x : string) :
  (indexOf a x =? -1) = bool_decide (x ∉ a).
Proof.
  destruct (Z.eqb_spec (indexOf a x) (-1)) as [Heq|Hne].
  - symmetry. apply bool_decide_eq_true_2. by apply indexOf_absent.
  - symmetry. apply bool_decide_eq_false_2. by rewrite <- indexOf_absent.
Qed.

Lemma get_prop_nullish (v : JsVal) (name : string) :
  nullish v = true → ∃ e, get_prop v name = Throw e.
Proof. destruct v; simpl; try discriminate; eauto. Qed.

Lemma get_prop_defined (v : JsVal) (name : string) :
  nullish v = false → ∃ x, get_prop v name = Normal x.
Proof. destruct v; simpl; try discriminate; eauto. Qed.

Lemma get_prop_Normal_nullish (v x : JsVal) (name : string) :
  get_prop v name = Normal x → nullish v = false.
Proof. destruct v; simpl; try discriminate; done. Qed.

Lemma string_app_nil_r (a : string) : a ++ EmptyString = a.
Proof.
  induction a as [|x a IH]; [done|].
  change (String x (a ++ EmptyString) = String x a). by rewrite IH.
Qed.

Lemma string_app_assoc (a b c : string) : (a ++ b) ++ c = a ++ b ++ c.
Proof.
  induction a as [|x a IH]; [done|].
  change (String x ((a ++ b) ++ c) = String x (a ++ b ++ c)). by rewrite IH.
Qed.

(** The constructor leaves an object whose options can be read, and on
    such an object the prototype's [generateRequestUri] returns. *)
Lemma WPRequest_options_defined (options : JsVal) :
  nullish (WPRequest._options (WPRequest.WPRequest options)) = false.
Proof.
  unfold WPRequest.WPRequest, js_or; simpl.
  destruct (truthy options) eqn:Ht; [|done]. by destruct options.
Qed.

Lemma prototype_generateRequestUri_defined (this : WPRequest.Fields) :
  nullish (WPRequest._options this) = false →
  ∃ url, WPRequest.prototype_generateRequestUri this = Normal url.
Proof. apply get_prop_defined. Qed.

Lemma toLowerCase_idempotent (s : string) :
  toLowerCase (toLowerCase s) = toLowerCase s.
Proof.
  induction s as [|c s IH]; simpl; [done|]. f_equal; [|done].
  unfold lower_ascii.
  destruct c as [[] [] [] [] [] [] [] []]; reflexivity.
Qed.



(** What [send] does to a request: the payload is stored, and no header
    other than [Content-Type] is touched. *)
Lemma send_request (d : JsVal) (r : Agent.Request) :
  Agent.method (Agent.send d r) = Agent.method r ∧
  Agent.url (Agent.send d r) = Agent.url r ∧
  Agent.data (Agent.send d r) = Some d ∧
  ∀ field, field ≠ "Content-Type" →
    Agent.header (Agent.send d r) !! field = Agent.header r !! field.
Proof.
  destruct d; simpl; unfold Agent.default_type; simpl;
    destruct (Agent.header r !! "Content-Type"); simpl;
    repeat split; try done; intros field Hne; by rewrite lookup_insert_ne.
Qed.

(** The request a verb builds: its method, its URL, its payload, and its
    headers but for the [Content-Type] that [send] may add. *)
Lemma verb_request_shape
    (v : WPRequest.Verb) (url username password data : JsVal) (req : Agent.Request) :
  verb_request v url username password data = Some req →
  verb_method v = Some (Agent.method req) ∧
  Agent.url req = url ∧
  Agent.data req = (if takes_data v then Some (js_or data (JObject ∅)) else None) ∧
  ∀ field, field ≠ "Content-Type" →
    Agent.header req !! field
    = if authenticated v && bool_decide (field = "Authorization")
      then Some (js_plus (js_plus username (JStr ":")) password)
      else None.
Proof.
  intros Hreq.
  destruct v; simpl in Hreq; inversion Hreq as [Heq]; clear Hreq; simpl.
  all: try (repeat split; try done; intros field Hne; simpl;
            case_bool_decide; subst;
            by rewrite ?lookup_insert_eq, ?lookup_insert_ne, ?lookup_empty).
  all: match goal with
       | |- context [Agent.send ?d ?r] =>
           destruct (send_request d r) as (Hm & Hu & Hd & Hh)
       end;
       rewrite Hm, Hu, Hd; repeat split; try done;
       intros field Hne; rewrite Hh by done; simpl;
       case_bool_decide; subst;
       by rewrite ?lookup_insert_eq, ?lookup_insert_ne, ?lookup_empty.
Qed.

(** ** The helpers of WPRequest.js *)

Lemma ensureFunction_callable (fn : JsVal) :
  ∃ f, WPRequest.ensureFunction fn = JFunction f.
Proof.
  unfold WPRequest.ensureFunction.
  destruct fn as [| | | | | | |f|]; simpl; eauto.
Qed.

Lemma call_ensureFunction {T} (fn : JsVal) (args : list JsVal) (s : Store T) :
  call (WPRequest.ensureFunction fn) args s
  = (Normal JUndefined, after s (callback_calls fn args)).
Proof.
  destruct s as [t n tr]. unfold after; simpl.
  destruct fn as [| | | | | | |[|f]|]; simpl; unfold ret;
    rewrite ?app_nil_r; reflexivity.
Qed.

Section Verbs.
Context {T : Type} `{WPRequest.RequestClass T}.
Import WPRequest.

Lemma checkMethodSupport_supported (method : string) (s : Store T) :
  toLowerCase method ∈ _supportedMethods (fields (this s)) →
  _checkMethodSupport method s = (Normal true, s).
Proof.
  intros Hin. unfold _checkMethodSupport, bind, read.
  rewrite indexOf_test, bool_decide_eq_false_2; [done|]. by intros Hn.
Qed.

Lemma checkMethodSupport_unsupported (method : string) (s : Store T) :
  toLowerCase method ∉ _supportedMethods (fields (this s)) →
  _checkMethodSupport method s
  = (Throw (JError "Error"
             ("Unsupported method; supported methods are: " ++
              String.concat ", " (_supportedMethods (fields (this s))))), s).
Proof.
  intros Hin. unfold _checkMethodSupport, bind, read.
  rewrite indexOf_test, bool_decide_eq_true_2; done.
Qed.

Lemma verb_name_lower (v : Verb) : toLowerCase (verb_name v) = verb_name v.
Proof. destruct v; reflexivity. Qed.

(** A verb whose name is not permitted throws before anything else happens. *)
Lemma invoke_unsupported (v : Verb) (data callback : JsVal) (s : Store T) :
  verb_name v ∉ _supportedMethods (fields (this s)) →
  invoke v data callback s
  = (Throw (JError "Error"
             ("Unsupported method; supported methods are: " ++
              String.concat ", " (_supportedMethods (fields (this s))))), s).
Proof.
  intros Hin.
  destruct v; simpl; unfold get, post, put, patch, delete, head, bind;
    rewrite checkMethodSupport_unsupported; done.
Qed.

(** A permitted verb other than [patch], on an object whose options can be
    read and whose URI is [url], submits one request and returns a new
    promise. *)
Lemma invoke_permitted (v : Verb) (data callback url : JsVal) (s : Store T) :
  v ≠ Patch →
  verb_name v ∈ _supportedMethods (fields (this s)) →
  nullish (_options (fields (this s))) = false →
  generateRequestUri (this s) = Normal url →
  ∃ username password req transform,
    get_prop (_options (fields (this s))) "username" = Normal username ∧
    get_prop (_options (fields (this s))) "password" = Normal password ∧
    verb_request v url username password data = Some req ∧
    verb_transform v = Some transform ∧
    invoke v data callback s
    = (Normal (JPromise (next_promise s)),
       after_promise s
         [EvEnd req (mkHandler (next_promise s) (ensureFunction callback) transform)]).
Proof.
  intros Hv Hin Hopt Huri.
  destruct (get_prop_defined _ "username" Hopt) as [username Hu].
  destruct (get_prop_defined _ "password" Hopt) as [password Hp].
  exists username, password.
  destruct v; try done; simpl; eexists _, _;
    (split; [done|]); (split; [done|]); (split; [reflexivity|]); (split; [reflexivity|]);
    unfold get, post, put, delete, head, bind;
    rewrite checkMethodSupport_supported by done;
    unfold this_generateRequestUri, this_options, bind, read, lift;
    rewrite Huri, ?Hu, ?Hp; reflexivity.
Qed.

(** [patch], permitted, does nothing at all. *)
Lemma patch_permitted (callback : JsVal) (s : Store T) :
  "patch" ∈ _supportedMethods (fields (this s)) →
  patch callback s = (Normal JUndefined, s).
Proof.
  intros Hin. unfold patch, bind.
  rewrite checkMethodSupport_supported by done. reflexivity.
Qed.

(** *** The function passed to [request.end] *)

(** The transform throws: the function is left by the exception, before the
    callback is called and before the promise is touched. *)
Lemma end_callback_transform_throws (h : Handler) (err result e : JsVal) (s : Store T) :
  h_transform h result = Throw e →
  end_callback h err result s = (Throw e, s).
Proof.
  intros Ht. unfold end_callback, bind, lift. by rewrite Ht.
Qed.

(** Otherwise the callback is called with [err] and the transformed result,
    and then the promise is rejected with [err || result.error] when that
    is truthy, and resolved with the transformed result when not. *)
Lemma end_callback_settles
    (h : Handler) (callback err result v re : JsVal) (s : Store T) :
  h_callback h = ensureFunction callback →
  h_transform h result = Normal v →
  get_prop result "error" = Normal re →
  end_callback h err result s
  = (Normal tt,
     after s (callback_calls callback [err; v] ++
              [if truthy (js_or err re)
               then EvReject (h_promise h) (js_or err re)
               else EvResolve (h_promise h) v])).
Proof.
  intros Hcb Ht He. destruct s as [t n tr].
  unfold end_callback, bind, lift. rewrite Ht, Hcb, call_ensureFunction.
  unfold err_or_result_error, js_or, after, lift, ret, reject, resolve, emit; simpl.
  destruct (truthy err) eqn:Herr; simpl.
  - rewrite Herr; simpl. by rewrite <- app_assoc.
  - rewrite He; simpl. destruct (truthy re) eqn:Hre; simpl.
    + by rewrite <- app_assoc.
    + by rewrite <- app_assoc.
Qed.

End Verbs.

(** ** The verb methods *)

Section Claims.
Context {T : Type} `{WPRequest.RequestClass T}.
Import WPRequest.

(** C1. A permitted [get], [post], [put], [delete] or [head] submits one
    request and returns a promise; whenever the transport then answers
    without an error, the second argument of the callback (when the caller
    gave one) and the value the promise is resolved with are the same
    value, and that value is the [body] field of the response for [get],
    [post], [put] and [delete], and its [headers] field for [head]. *)
Theorem success_callback_and_promise_agree
    (v : Verb) (data callback url : JsVal) (s : Store T) :
  v ≠ Patch →
  verb_name v ∈ _supportedMethods (fields (this s)) →
  nullish (_options (fields (this s))) = false →
  generateRequestUri (this s) = Normal url →
  ∃ req h,
    invoke v data callback s
    = (Normal (JPromise (next_promise s)), after_promise s [EvEnd req h]) ∧
    ∀ (err result : JsVal) (s' : Store T),
      response_ok err result = true →
      ∃ value,
        get_prop result (verb_field v) = Normal value ∧
        end_callback h err result s'
        = (Normal tt,
           after s' (callback_calls callback [err; value] ++
                     [EvResolve (next_promise s) value])).
Proof.
  intros Hv Hin Hopt Huri.
  destruct (invoke_permitted v data callback url s Hv Hin Hopt Huri)
    as (username & password & req & transform & _ & _ & _ & Htr & Hrun).
  eexists req, _. split; [exact Hrun|].
  intros err result s' Hok.
  apply andb_true_iff in Hok as [Herr Hre].
  apply negb_true_iff in Herr.
  destruct (get_prop result "error") as [re|] eqn:Hge; [|discriminate].
  apply negb_true_iff in Hre.
  pose proof (get_prop_Normal_nullish _ _ _ Hge) as Hres.
  destruct (get_prop_defined result (verb_field v) Hres)
    as [value Hvalue].
  exists value. split; [done|].
  rewrite (end_callback_settles _ callback err result value re); simpl.
  - unfold js_or. by rewrite Herr, Hre.
  - done.
  - destruct v; simpl in Htr; inversion Htr; subst transform; try done.
  - done.
Qed.


(** C4. Each of [get], [post], [put], [delete] and [head], invoked with its
    verb permitted, returns a promise and submits one request. When the
    transport answers with [err] and a response that is neither [undefined]
    nor [null], and either [err] is set or there is no error at all, the
    callback (when the caller gave one) is called with [err] as its first
    argument and the transformed response as its second, and the promise
    is then rejected with [err], or resolved with the transformed response.
    [patch], invoked with its verb permitted, returns [undefined] and
    leaves the store as it was: it calls no callback. *)
Theorem verbs_return_promise_and_call_back
    (v : Verb) (data callback url : JsVal) (s : Store T) :
  verb_name v ∈ _supportedMethods (fields (this s)) →
  nullish (_options (fields (this s))) = false →
  generateRequestUri (this s) = Normal url →
  if v is Patch then invoke v data callback s = (Normal JUndefined, s)
  else
    ∃ req h,
      invoke v data callback s
      = (Normal (JPromise (next_promise s)), after_promise s [EvEnd req h]) ∧
      ∀ (err result : JsVal) (s' : Store T),
        nullish result = false →
        truthy err = true ∨ response_ok err result = true →
        ∃ value,
          get_prop result (verb_field v) = Normal value ∧
          end_callback h err result s'
          = (Normal tt,
             after s' (callback_calls callback [err; value] ++
                       [if truthy err then EvReject (next_promise s) err
                        else EvResolve (next_promise s) value])).
Proof.
  intros Hin Hopt Huri.
  destruct (decide (v = Patch)) as [->|Hv].
  { by apply patch_permitted. }
  destruct (invoke_permitted v data callback url s Hv Hin Hopt Huri)
    as (username & password & req & transform & _ & _ & _ & Htr & Hrun).
  assert (∃ req h,
    invoke v data callback s
    = (Normal (JPromise (next_promise s)), after_promise s [EvEnd req h]) ∧
    ∀ (err result : JsVal) (s' : Store T),
      nullish result = false →
      truthy err = true ∨ response_ok err result = true →
      ∃ value,
        get_prop result (verb_field v) = Normal value ∧
        end_callback h err result s'
        = (Normal tt,
           after s' (callback_calls callback [err; value] ++
                     [if truthy err then EvReject (next_promise s) err
                      else EvResolve (next_promise s) value]))) as Hgoal.
  { eexists req, _. split; [exact Hrun|].
    intros err result s' Hres Hcase.
    destruct (get_prop_defined result (verb_field v) Hres) as [value Hvalue].
    destruct (get_prop_defined result "error" Hres) as [re Hre].
    exists value. split; [done|].
    rewrite (end_callback_settles _ callback err result value re); simpl; try done.
    - unfold js_or. destruct (truthy err) eqn:Herr; simpl; [by rewrite Herr|].
      destruct Hcase as [|Hok]; [done|].
      unfold response_ok in Hok. rewrite Herr, Hre in Hok. simpl in Hok.
      apply negb_true_iff in Hok. by rewrite Hok.
    - destruct v; simpl in Htr; inversion Htr; subst transform; try done. }
  destruct v; done.
Qed.

(** C5. When ['patch'] is in the permitted set, [patch] passes the method
    check, takes any callback argument (a function, something else, or
    none), returns [undefined] and leaves the store exactly as it was: the
    object is unchanged, no request has been submitted, no promise made and
    no callback called. *)
Theorem patch_is_a_no_op (callback : JsVal) (s : Store T) :
  "patch" ∈ _supportedMethods (fields (this s)) →
  _checkMethodSupport "patch" s = (Normal true, s) ∧
  patch callback s = (Normal JUndefined, s).
Proof.
  intros Hin. split.
  - by apply checkMethodSupport_supported.
  - by apply patch_permitted.
Qed.


(** C9. A permitted [post], [put] or [delete] submits one request, and the
    request it submits already carries the header [Authorization]. Its
    value is the configured username, a colon and the configured password
    as one string, as they are: no scheme word comes before it and nothing
    is encoded. *)
Theorem mutating_verbs_send_credentials
    (v : Verb) (data callback username password : JsVal) (url : string)
    (s : Store T) :
  authenticated v = true →
  verb_name v ∈ _supportedMethods (fields (this s)) →
  generateRequestUri (this s) = Normal (JStr url) →
  get_prop (_options (fields (this s))) "username" = Normal username →
  get_prop (_options (fields (this s))) "password" = Normal password →
  prints_exactly username = true →
  prints_exactly password = true →
  ∃ req h,
    invoke v data callback s
    = (Normal (JPromise (next_promise s)), after_promise s [EvEnd req h]) ∧
    Agent.url req = JStr url ∧
    Agent.header req !! "Authorization"
    = Some (JStr (to_string username ++ ":" ++ to_string password)).
Proof.
  intros Hauth Hin Huri Hu Hp _ _.
  assert (v ≠ Patch) as Hv by (by intros ->).
  pose proof (get_prop_Normal_nullish _ _ _ Hu) as Hopt.
  destruct (invoke_permitted v data callback (JStr url) s Hv Hin Hopt Huri)
    as (username' & password' & req & transform & Hu' & Hp' & Hreq & _ & Hrun).
  rewrite Hu in Hu'. rewrite Hp in Hp'.
  inversion Hu'; subst username'. inversion Hp'; subst password'.
  destruct (verb_request_shape _ _ _ _ _ _ Hreq) as (_ & Hurl & _ & Hhdr).
  eexists req, _. split; [exact Hrun|]. split; [done|].
  rewrite Hhdr by done. rewrite Hauth; simpl.
  unfold js_plus; simpl. by rewrite string_app_assoc.
Qed.

End Claims.

Lemma success_callback_and_promise_agree_witness :
  ∃ req h,
    WPRequest.invoke WPRequest.Get JUndefined example_callback example_store
    = (Normal (JPromise 0), after_promise example_store [EvEnd req h]) ∧
    ∀ (err result : JsVal) (s' : Store WPRequest.Fields),
      response_ok err result = true →
      ∃ value,
        get_prop result "body" = Normal value ∧
        WPRequest.end_callback h err result s'
        = (Normal tt,
           after s' (callback_calls example_callback [err; value] ++
                     [EvResolve 0 value])).
Proof.
  refine (success_callback_and_promise_agree
            WPRequest.Get JUndefined example_callback (JStr "/wp-json/") example_store
            _ _ _ _).
  - discriminate.
  - apply (bool_decide_unpack _). vm_compute. exact I.
  - reflexivity.
  - reflexivity.
Defined.


(** The check takes [GET] and [Head] for [get] and [head]. *)
Example capital_method_names_are_accepted :
  WPRequest._checkMethodSupport "GET" readonly_store = (Normal true, readonly_store) ∧
  WPRequest._checkMethodSupport "Head" readonly_store = (Normal true, readonly_store) ∧
  WPRequest._checkMethodSupport "POST" readonly_store
  = (Throw (JError "Error" "Unsupported method; supported methods are: head, get"),
     readonly_store).
Proof. repeat split; vm_compute; reflexivity. Qed.

Lemma verbs_return_promise_and_call_back_witness :
  ∃ req h,
    WPRequest.invoke WPRequest.Head JUndefined example_callback example_store
    = (Normal (JPromise 0), after_promise example_store [EvEnd req h]) ∧
    ∀ (err result : JsVal) (s' : Store WPRequest.Fields),
      nullish result = false →
      truthy err = true ∨ response_ok err result = true →
      ∃ value,
        get_prop result "headers" = Normal value ∧
        WPRequest.end_callback h err result s'
        = (Normal tt,
           after s' (callback_calls example_callback [err; value] ++
                     [if truthy err then EvReject 0 err else EvResolve 0 value])).
Proof.
  refine (verbs_return_promise_and_call_back
            WPRequest.Head JUndefined example_callback (JStr "/wp-json/") example_store
            _ _ _).
  - apply (bool_decide_unpack _). vm_compute. exact I.
  - reflexivity.
  - reflexivity.
Defined.

Lemma patch_is_a_no_op_witness :
  WPRequest._checkMethodSupport "patch" example_store = (Normal true, example_store) ∧
  WPRequest.patch example_callback example_store = (Normal JUndefined, example_store).
Proof.
  refine (patch_is_a_no_op example_callback example_store _).
  apply (bool_decide_unpack _). vm_compute. exact I.
Defined.


Lemma mutating_verbs_send_credentials_witness :
  ∃ req h,
    WPRequest.invoke WPRequest.Post JUndefined example_callback example_store
    = (Normal (JPromise 0), after_promise example_store [EvEnd req h]) ∧
    Agent.url req = JStr "/wp-json/" ∧
    Agent.header req !! "Authorization"
    = Some (JStr (to_string (JStr "admin") ++ ":" ++ to_string (JStr "secret"))).
Proof.
  refine (mutating_verbs_send_credentials
            WPRequest.Post JUndefined example_callback (JStr "admin") (JStr "secret")
            "/wp-json/" example_store _ _ _ _ _ _ _).
  - reflexivity.
  - apply (bool_decide_unpack _). vm_compute. exact I.
  - reflexivity.
  - reflexivity.
  - reflexivity.
  - reflexivity.
  - reflexivity.
Defined.

(** C9 as stated fails: the header is not one of the Basic scheme. With
    the username [admin] and the password [secret], [post] submits a
    request whose [Authorization] is the bare [admin:secret], where Basic
    credentials are the word [Basic] and the base64 of [admin:secret]. *)
Lemma authorization_header_is_not_basic :
  WPRequest.invoke WPRequest.Post JUndefined example_callback example_store
  = (Normal (JPromise 0),
     after_promise example_store [EvEnd example_post example_handler]) ∧
  Agent.header example_post !! "Authorization" = Some (JStr "admin:secret") ∧
  basic_credentials "admin" "secret" = "Basic YWRtaW46c2VjcmV0" ∧
  JStr "admin:secret" ≠ JStr (basic_credentials "admin" "secret").
Proof.
  split; [vm_compute; reflexivity|].
  split; [vm_compute; reflexivity|].
  split; [vm_compute; reflexivity|].
  vm_compute. discriminate.
Qed.

(** ** Where callback and promise part ways *)

(** C2, at the input that breaks it. A [get] whose transport answers with
    [err] [null] and a response whose [error] field is set calls the
    callback with [null] as its first argument and the body as its second,
    and then rejects the promise with the response's error: the callback
    is not told of the error the promise is rejected with. And when the
    transport answers with an error and no response at all, the transform
    throws on the missing response: the callback is not called and the
    promise is never settled. *)
Theorem response_error_reaches_the_promise_only :
  WPRequest.invoke WPRequest.Get JUndefined example_callback example_store
  = (Normal (JPromise 0), after_promise example_store [EvEnd example_get example_handler]) ∧
  WPRequest.end_callback example_handler JNull not_found_response
    (after_promise example_store [EvEnd example_get example_handler])
  = (Normal tt,
     after_promise example_store
       [EvEnd example_get example_handler;
        EvCall "done" [JNull; JStr "missing"];
        EvReject 0 (JError "Error" "Not Found")]) ∧
  WPRequest.end_callback example_handler (JError "Error" "ECONNREFUSED") JUndefined
    (after_promise example_store [EvEnd example_get example_handler])
  = (Throw (JError "TypeError" "Cannot read property 'body' of undefined"),
     after_promise example_store [EvEnd example_get example_handler]).
Proof. repeat split; vm_compute; reflexivity. Qed.

(** C4 as stated fails on [patch]: on an object that permits every verb,
    [patch] called with a callback returns [undefined], which is no
    promise, and the trace stays empty: nothing is submitted whose answer
    could ever call the callback. *)
Lemma patch_returns_no_promise :
  "patch" ∈ WPRequest._supportedMethods (this example_store) ∧
  fst (WPRequest.patch example_callback example_store) = Normal JUndefined ∧
  trace (snd (WPRequest.patch example_callback example_store)) = [].
Proof.
  split; [|split; reflexivity].
  apply (bool_decide_unpack _). vm_compute. exact I.
Qed.


(** ** Credentials and the reading verbs *)

(** C10. Two configurations that agree on everything but [username] and
    [password] make [get] and [head] behave alike: the same outcome, the
    same promise, the same events. The request submitted goes to the
    configured endpoint and carries no header and no payload. *)
Theorem credentials_do_not_reach_get_and_head
    (v : WPRequest.Verb) (o1 o2 : gmap string JsVal) (methods : list string)
    (data callback : JsVal) (n : nat) (tr : list Event) :
  v = WPRequest.Get ∨ v = WPRequest.Head →
  strip_credentials o1 = strip_credentials o2 →
  ∃ out n' evs,
    WPRequest.invoke v data callback
      (mkStore (WPRequest.mkFields (JObject o1) methods) n tr)
    = (out, mkStore (WPRequest.mkFields (JObject o1) methods) n' (tr ++ evs)) ∧
    WPRequest.invoke v data callback
      (mkStore (WPRequest.mkFields (JObject o2) methods) n tr)
    = (out, mkStore (WPRequest.mkFields (JObject o2) methods) n' (tr ++ evs)) ∧
    ∀ req h, EvEnd req h ∈ evs →
      Agent.url req = default JUndefined (strip_credentials o1 !! "endpoint") ∧
      Agent.header req = ∅ ∧
      Agent.data req = None.
Proof.
  intros Hv Hstrip.
  assert (∀ o : gmap string JsVal,
            strip_credentials o !! "endpoint" = o !! "endpoint") as Hend.
  { intros o. unfold strip_credentials. by rewrite !lookup_delete_ne. }
  assert (o2 !! "endpoint" = o1 !! "endpoint") as Heq.
  { by rewrite <- (Hend o2), <- Hstrip, Hend. }
  rewrite Hend.
  set (url := default JUndefined (o1 !! "endpoint")).
  set (s1 := mkStore (WPRequest.mkFields (JObject o1) methods) n tr).
  set (s2 := mkStore (WPRequest.mkFields (JObject o2) methods) n tr).
  assert (WPRequest.generateRequestUri (this s2) = Normal url) as Huri2.
  { unfold url. simpl. unfold WPRequest.prototype_generateRequestUri. simpl.
    by rewrite Heq. }
  destruct (decide (WPRequest.verb_name v ∈ methods)) as [Hin|Hnin].
  - assert (v ≠ WPRequest.Patch) as Hp by (destruct Hv; by subst v).
    pose proof (invoke_permitted (H:=WPRequest.WPRequest_class)
                  v data callback url s1 Hp) as Hrun1.
    pose proof (invoke_permitted (H:=WPRequest.WPRequest_class)
                  v data callback url s2 Hp) as Hrun2.
    simpl in Hrun1, Hrun2.
    destruct (Hrun1 Hin eq_refl eq_refl)
      as (u1 & p1 & req1 & t1 & _ & _ & Hreq1 & Ht1 & Hinv1).
    destruct (Hrun2 Hin eq_refl Huri2)
      as (u2 & p2 & req2 & t2 & _ & _ & Hreq2 & Ht2 & Hinv2).
    assert (req2 = req1 ∧ Agent.url req1 = url ∧ Agent.header req1 = ∅
            ∧ Agent.data req1 = None) as (-> & Hurl & Hhdr & Hdata).
    { destruct Hv; subst v; simpl in Hreq1, Hreq2;
        inversion Hreq1; inversion Hreq2; done. }
    assert (t2 = t1) as -> by congruence.
    eexists _, _, _. split; [exact Hinv1|]. split; [exact Hinv2|].
    intros req h Hev. apply list_elem_of_singleton in Hev. by inversion Hev; subst.
  - pose proof (invoke_unsupported (H:=WPRequest.WPRequest_class)
                  v data callback s1) as Hrun1.
    pose proof (invoke_unsupported (H:=WPRequest.WPRequest_class)
                  v data callback s2) as Hrun2.
    simpl in Hrun1, Hrun2.
    exists (Throw (JError "Error"
              ("Unsupported method; supported methods are: " ++
               String.concat ", " methods))), n, [].
    rewrite app_nil_r.
    split; [exact (Hrun1 Hnin)|]. split; [exact (Hrun2 Hnin)|].
    intros req h Hev. by apply elem_of_nil in Hev.
Qed.

Lemma credentials_do_not_reach_get_and_head_witness :
  ∃ out n' evs,
    WPRequest.invoke WPRequest.Get JUndefined example_callback
      (mkStore (WPRequest.mkFields
                  (JObject (<["endpoint" := JStr "/wp-json/"]>
                           (<["username" := JStr "admin"]>
                           (<["password" := JStr "secret"]> ∅))))
                  ["head"; "get"]) 0 [])
    = (out,
       mkStore (WPRequest.mkFields
                  (JObject (<["endpoint" := JStr "/wp-json/"]>
                           (<["username" := JStr "admin"]>
                           (<["password" := JStr "secret"]> ∅))))
                  ["head"; "get"]) n' ([] ++ evs)) ∧
    WPRequest.invoke WPRequest.Get JUndefined example_callback
      (mkStore (WPRequest.mkFields
                  (JObject (<["endpoint" := JStr "/wp-json/"]> ∅))
                  ["head"; "get"]) 0 [])
    = (out,
       mkStore (WPRequest.mkFields
                  (JObject (<["endpoint" := JStr "/wp-json/"]> ∅))
                  ["head"; "get"]) n' ([] ++ evs)) ∧
    ∀ req h, EvEnd req h ∈ evs →
      Agent.url req
      = default JUndefined
          (strip_credentials
             (<["endpoint" := JStr "/wp-json/"]>
             (<["username" := JStr "admin"]>
             (<["password" := JStr "secret"]> ∅))) !! "endpoint") ∧
      Agent.header req = ∅ ∧
      Agent.data req = None.
Proof.
  refine (credentials_do_not_reach_get_and_head
            WPRequest.Get
            (<["endpoint" := JStr "/wp-json/"]>
            (<["username" := JStr "admin"]>
            (<["password" := JStr "secret"]> ∅)))
            (<["endpoint" := JStr "/wp-json/"]> ∅)
            ["head"; "get"] JUndefined example_callback 0 [] _ _).
  - left. reflexivity.
  - vm_compute. reflexivity.
Defined.

(** ** The URIs of the resource subtypes *)

(** C6. On a taxonomies object configured with the endpoint ['/wp-json/'],
    [generateRequestUri] gives ['/wp-json/taxonomies'] when fresh,
    ['/wp-json/taxonomies/my-tax'] after [id('my-tax')],
    ['/wp-json/taxonomies/my-tax/terms'] after [id('my-tax').terms()] and
    ['/wp-json/taxonomies/my-tax/terms/1337'] after
    [id('my-tax').terms().id(1337)]. In every state of the object the URI
    is the endpoint, the resource name and one segment for each of id,
    action and action id, where a field that is [null] gives no segment. *)
Theorem taxonomies_generateRequestUri :
  Taxonomies.generateRequestUri test_taxonomies
  = Normal (JStr "/wp-json/taxonomies") ∧
  Taxonomies.generateRequestUri (Taxonomies.id (JStr "my-tax") test_taxonomies)
  = Normal (JStr "/wp-json/taxonomies/my-tax") ∧
  Taxonomies.generateRequestUri
    (Taxonomies.terms (Taxonomies.id (JStr "my-tax") test_taxonomies))
  = Normal (JStr "/wp-json/taxonomies/my-tax/terms") ∧
  Taxonomies.generateRequestUri
    (Taxonomies.id (JNum 1337)
       (Taxonomies.terms (Taxonomies.id (JStr "my-tax") test_taxonomies)))
  = Normal (JStr "/wp-json/taxonomies/my-tax/terms/1337") ∧
  ∀ (options : gmap string JsVal) (methods : list string) (i a ai : JsVal),
    Taxonomies.generateRequestUri
      (Taxonomies.mkTaxonomiesRequest
         (WPRequest.mkFields (JObject options) methods) i a ai)
    = Normal (JStr (to_string (default JUndefined (options !! "endpoint")) ++
                    "taxonomies" ++ segment i ++
                    (if is_null a then EmptyString else segment a ++ segment ai))).
Proof.
  repeat split; try reflexivity.
  intros options methods i a ai.
  unfold Taxonomies.generateRequestUri, endpoint_plus_path, push_unless_null, segment.
  simpl.
  destruct (is_null i), (is_null a), (is_null ai);
    rewrite ?string_app_nil_r; reflexivity.
Qed.

Lemma users_chain_base (calls : list Users.Setter) (this : Users.UsersRequest) :
  Users.base (Users.chain calls this) = Users.base this.
Proof.
  revert this. induction calls as [|c calls IH]; intros this; [done|].
  unfold Users.chain in *. simpl. rewrite IH. by destruct c.
Qed.

Lemma users_chain_last (calls : list Users.Setter) (c : Users.Setter)
    (this : Users.UsersRequest) :
  Users.chain (calls ++ [c]) this = Users.apply_setter (Users.chain calls this) c.
Proof. unfold Users.chain. by rewrite fold_left_app. Qed.

(** C7. On a users object configured with the endpoint ['/wp-json/'],
    [generateRequestUri] gives ['/wp-json/users'] when fresh,
    ['/wp-json/users/me'] after [me()] and ['/wp-json/users/1337'] after
    [id(1337)]. The shortcut and a numeric id exclude each other: after any
    chain of [me()] and [id(...)] calls the URI is that of the last call
    alone. *)
Theorem users_generateRequestUri :
  Users.generateRequestUri test_users = Normal (JStr "/wp-json/users") ∧
  Users.generateRequestUri (Users.me test_users) = Normal (JStr "/wp-json/users/me") ∧
  Users.generateRequestUri (Users.id (JNum 1337) test_users)
  = Normal (JStr "/wp-json/users/1337") ∧
  (∀ (calls : list Users.Setter) (n : Z),
     Users.generateRequestUri (Users.chain (calls ++ [Users.CallId (JNum n)]) test_users)
     = Normal (JStr ("/wp-json/users/" ++ pretty n))) ∧
  (∀ calls : list Users.Setter,
     Users.generateRequestUri (Users.chain (calls ++ [Users.CallMe]) test_users)
     = Normal (JStr "/wp-json/users/me")).
Proof.
  repeat split; try reflexivity.
  - intros calls n. rewrite users_chain_last.
    unfold Users.generateRequestUri. simpl. by rewrite users_chain_base.
  - intros calls. rewrite users_chain_last.
    unfold Users.generateRequestUri. simpl. by rewrite users_chain_base.
Qed.

(** * Further properties of lib/WPRequest.js *)

Section Conduct.
Context {T : Type} `{WPRequest.RequestClass T}.
Import WPRequest.

(** X1. Whatever the verb, its arguments and the state of the object, a verb
    method leaves [this] as it was and does one of two things before it
    returns: nothing (it threw, or it is [patch]), or it made one promise
    and submitted one request whose handler settles that promise. It never
    calls the callback and never settles a promise itself. *)
Theorem verbs_only_submit (v : Verb) (data callback : JsVal) (s : Store T) :
  ∃ out n' evs,
    invoke v data callback s = (out, mkStore (this s) n' (trace s ++ evs)) ∧
    ((evs = [] ∧ n' = next_promise s ∧ (out = Normal JUndefined ∨ ∃ e, out = Throw e)) ∨
     (∃ req h,
        evs = [EvEnd req h] ∧ n' = S (next_promise s) ∧
        out = Normal (JPromise (next_promise s)) ∧
        h_promise h = next_promise s)).
Proof.
  assert (s = mkStore (this s) (next_promise s) (trace s ++ [])) as Hs.
  { destruct s; simpl. by rewrite app_nil_r. }
  destruct (decide (verb_name v ∈ _supportedMethods (fields (this s)))) as [Hin|Hnin].
  2: { rewrite invoke_unsupported by done.
       eexists _, (next_promise s), []. split; [by rewrite <- Hs|]. left. eauto. }
  destruct v; simpl; unfold get, post, put, patch, delete, head, bind;
    rewrite checkMethodSupport_supported by done;
    unfold this_generateRequestUri, this_options, bind, read, lift;
    try (destruct (generateRequestUri (this s)) as [url|e]);
    try (destruct (get_prop (_options (fields (this s))) "username") as [username|e]);
    try (destruct (get_prop (_options (fields (this s))) "password") as [password|e]);
    first
      [ (eexists _, (S (next_promise s)), [_]; split; [reflexivity|];
         right; eexists _, _; done)
      | (eexists _, (next_promise s), []; split; [by rewrite <- Hs|];
         left; eauto) ].
Qed.


(** X2. A permitted verb other than [patch] submits its request to the URI that
    [generateRequestUri] returns, with the HTTP method of its name. The
    one header the verb sets is [Authorization], and only [post], [put]
    and [delete] set it; a [Content-Type] is the matter of the transport's
    [send]. *)
Theorem submitted_request_target
    (v : Verb) (data callback : JsVal) (url : string) (s : Store T) :
  v ≠ Patch →
  verb_name v ∈ _supportedMethods (fields (this s)) →
  nullish (_options (fields (this s))) = false →
  generateRequestUri (this s) = Normal (JStr url) →
  ∃ req h,
    invoke v data callback s
    = (Normal (JPromise (next_promise s)), after_promise s [EvEnd req h]) ∧
    verb_method v = Some (Agent.method req) ∧
    Agent.url req = JStr url ∧
    ∀ field, field ≠ "Content-Type" →
      (is_Some (Agent.header req !! field)
         ↔ authenticated v = true ∧ field = "Authorization").
Proof.
  intros Hv Hin Hopt Huri.
  destruct (invoke_permitted v data callback (JStr url) s Hv Hin Hopt Huri)
    as (username & password & req & transform & _ & _ & Hreq & _ & Hrun).
  destruct (verb_request_shape _ _ _ _ _ _ Hreq) as (Hm & Hu & _ & Hh).
  eexists req, _. split; [exact Hrun|]. split; [done|]. split; [done|].
  intros field Hne. rewrite (Hh field Hne).
  destruct (authenticated v); simpl.
  - case_bool_decide as Hfield.
    + split; [done | eauto].
    + split; [intros Hsome; by apply is_Some_None in Hsome | by intros [_ ?]].
  - split; [intros Hsome; by apply is_Some_None in Hsome | by intros [? _]].
Qed.

(** X3. [post] and [put] always send a payload: the [data] they were given
    when it is truthy, and an empty object in its place when it is
    [undefined], [null], [false], [0] or the empty string. [get],
    [delete] and [head] send none. *)
Theorem payload_defaults_to_empty_object
    (v : Verb) (data callback url : JsVal) (s : Store T) :
  v ≠ Patch →
  verb_name v ∈ _supportedMethods (fields (this s)) →
  nullish (_options (fields (this s))) = false →
  generateRequestUri (this s) = Normal url →
  ∃ req h,
    invoke v data callback s
    = (Normal (JPromise (next_promise s)), after_promise s [EvEnd req h]) ∧
    Agent.data req
    = (if takes_data v
       then Some (if truthy data then data else JObject ∅)
       else None).
Proof.
  intros Hv Hin Hopt Huri.
  destruct (invoke_permitted v data callback url s Hv Hin Hopt Huri)
    as (username & password & req & transform & _ & _ & Hreq & _ & Hrun).
  destruct (verb_request_shape _ _ _ _ _ _ Hreq) as (_ & _ & Hd & _).
  eexists req, _. split; [exact Hrun|]. by rewrite Hd.
Qed.

(** X4. For the request of a permitted verb, and an answer whose response is
    neither [undefined] nor [null]: the promise is rejected exactly when
    [err] or the [error] field of the response is truthy, with [err] as the
    reason when it is truthy and the [error] field otherwise, and it is
    resolved with the transformed response in every other case, also when
    [err] is a falsy value other than [null]. The callback is called first,
    with [err] itself and the transformed response, in all these cases. *)
Theorem promise_rejected_iff_error
    (v : Verb) (data callback url : JsVal) (s : Store T) :
  v ≠ Patch →
  verb_name v ∈ _supportedMethods (fields (this s)) →
  nullish (_options (fields (this s))) = false →
  generateRequestUri (this s) = Normal url →
  ∃ req h,
    invoke v data callback s
    = (Normal (JPromise (next_promise s)), after_promise s [EvEnd req h]) ∧
    ∀ (err result : JsVal) (s' : Store T),
      nullish result = false →
      ∃ value re,
        get_prop result (verb_field v) = Normal value ∧
        get_prop result "error" = Normal re ∧
        end_callback h err result s'
        = (Normal tt,
           after s' (callback_calls callback [err; value] ++
                     [if truthy err then EvReject (next_promise s) err
                      else if truthy re then EvReject (next_promise s) re
                      else EvResolve (next_promise s) value])).
Proof.
  intros Hv Hin Hopt Huri.
  destruct (invoke_permitted v data callback url s Hv Hin Hopt Huri)
    as (username & password & req & transform & _ & _ & _ & Htr & Hrun).
  eexists req, _. split; [exact Hrun|].
  intros err result s' Hres.
  destruct (get_prop_defined result (verb_field v) Hres) as [value Hvalue].
  destruct (get_prop_defined result "error" Hres) as [re Hre].
  exists value, re. split; [done|]. split; [done|].
  rewrite (end_callback_settles _ callback err result value re); simpl; try done.
  - unfold js_or. destruct (truthy err) eqn:Herr; simpl; [by rewrite Herr|done].
  - destruct v; simpl in Htr; inversion Htr; subst transform; try done.
Qed.

(** X5. When the response is an object that lacks the field the verb reads
    ([body], or [headers] for [head]) and has no [error] field, and [err]
    is falsy, the callback and the promise both receive [undefined]: a
    missing field is no error. *)
Theorem missing_field_resolves_undefined
    (v : Verb) (data callback url err : JsVal) (props : gmap string JsVal)
    (s s' : Store T) :
  v ≠ Patch →
  verb_name v ∈ _supportedMethods (fields (this s)) →
  nullish (_options (fields (this s))) = false →
  generateRequestUri (this s) = Normal url →
  truthy err = false →
  props !! verb_field v = None →
  props !! "error" = None →
  ∃ req h,
    invoke v data callback s
    = (Normal (JPromise (next_promise s)), after_promise s [EvEnd req h]) ∧
    end_callback h err (JObject props) s'
    = (Normal tt,
       after s' (callback_calls callback [err; JUndefined] ++
                 [EvResolve (next_promise s) JUndefined])).
Proof.
  intros Hv Hin Hopt Huri Herr Hfield Herror.
  destruct (invoke_permitted v data callback url s Hv Hin Hopt Huri)
    as (username & password & req & transform & _ & _ & _ & Htr & Hrun).
  eexists req, _. split; [exact Hrun|].
  rewrite (end_callback_settles _ callback err (JObject props) JUndefined JUndefined);
    simpl; try done.
  - unfold js_or. by rewrite Herr.
  - destruct v; simpl in Htr, Hfield; inversion Htr; subst transform; try done;
      unfold returnBody, returnHeaders; simpl; by rewrite Hfield.
  - by rewrite Herror.
Qed.


(** X7. Without a transform, [invokeAndPromisify] passes the response on as it
    is. An answer with [err] set then calls the callback with [err] and
    the response and rejects the promise with [err], also when there is no
    response at all. An answer with a falsy [err] and no response calls the
    callback and then fails on reading the [error] field: the promise is
    left pending. Otherwise the [error] field of the response decides
    between rejection with it and resolution with the whole response. *)
Theorem invokeAndPromisify_without_transform
    (request : Agent.Request) (callback : JsVal) (s : Store T) :
  ∃ h,
    invokeAndPromisify request callback None s
    = (Normal (JPromise (next_promise s)), after_promise s [EvEnd request h]) ∧
    (∀ (err result : JsVal) (s' : Store T),
       truthy err = true →
       end_callback h err result s'
       = (Normal tt,
          after s' (callback_calls callback [err; result] ++
                    [EvReject (next_promise s) err]))) ∧
    (∀ (err result : JsVal) (s' : Store T),
       truthy err = false → nullish result = true →
       ∃ e, end_callback h err result s'
            = (Throw e, after s' (callback_calls callback [err; result]))) ∧
    (∀ (err result re : JsVal) (s' : Store T),
       truthy err = false → get_prop result "error" = Normal re →
       end_callback h err result s'
       = (Normal tt,
          after s' (callback_calls callback [err; result] ++
                    [if truthy re then EvReject (next_promise s) re
                     else EvResolve (next_promise s) result]))).
Proof.
  eexists. split; [reflexivity|]. split; [|split].
  - intros err result s' Herr.
    unfold end_callback, bind, lift; simpl. rewrite call_ensureFunction.
    unfold err_or_result_error. rewrite Herr. unfold ret; simpl. rewrite Herr.
    unfold reject, emit, after; simpl. by rewrite <- app_assoc.
  - intros err result s' Herr Hres.
    destruct (get_prop_nullish result "error" Hres) as [e He]. exists e.
    unfold end_callback, bind, lift; simpl. rewrite call_ensureFunction.
    unfold err_or_result_error. rewrite Herr. unfold lift. by rewrite He.
  - intros err result re s' Herr Hre.
    rewrite (end_callback_settles _ callback err result result re); try done.
    unfold js_or. by rewrite Herr.
Qed.

(** X8. The check never accepts a name through an entry that has a capital
    letter in it: only the method name is lowercased, the entries are
    compared as they stand. When every entry has one, every method name is
    refused. *)
Theorem capital_entries_never_match (method : string) (s : Store T) :
  Forall (λ entry, toLowerCase entry ≠ entry) (_supportedMethods (fields (this s))) →
  _checkMethodSupport method s
  = (Throw (JError "Error"
             ("Unsupported method; supported methods are: " ++
              String.concat ", " (_supportedMethods (fields (this s))))), s).
Proof.
  intros Hall. apply checkMethodSupport_unsupported. intros Hin.
  rewrite Forall_forall in Hall. apply (Hall _ Hin).
  apply toLowerCase_idempotent.
Qed.

(** X9. Two verbs invoked one after the other on the same object make two
    promises and submit two requests, in that order, both to the URI of
    the object; each request has its own handler, bound to its own promise
    and its own callback. *)
Theorem two_invocations_are_independent
    (v1 v2 : Verb) (data1 callback1 data2 callback2 url : JsVal) (s : Store T) :
  v1 ≠ Patch → v2 ≠ Patch →
  verb_name v1 ∈ _supportedMethods (fields (this s)) →
  verb_name v2 ∈ _supportedMethods (fields (this s)) →
  nullish (_options (fields (this s))) = false →
  generateRequestUri (this s) = Normal url →
  ∃ req1 h1 req2 h2,
    (invoke v1 data1 callback1 ;; invoke v2 data2 callback2) s
    = (Normal (JPromise (S (next_promise s))),
       mkStore (this s) (S (S (next_promise s)))
         (trace s ++ [EvEnd req1 h1; EvEnd req2 h2])) ∧
    h_promise h1 = next_promise s ∧ h_promise h2 = S (next_promise s) ∧
    h_callback h1 = ensureFunction callback1 ∧
    h_callback h2 = ensureFunction callback2 ∧
    verb_method v1 = Some (Agent.method req1) ∧
    verb_method v2 = Some (Agent.method req2) ∧
    Agent.url req1 = url ∧ Agent.url req2 = url.
Proof.
  intros Hv1 Hv2 Hin1 Hin2 Hopt Huri.
  destruct (invoke_permitted v1 data1 callback1 url s Hv1 Hin1 Hopt Huri)
    as (u1 & p1 & req1 & t1 & _ & _ & Hreq1 & _ & Hrun1).
  set (s1 := after_promise s
               [EvEnd req1 (mkHandler (next_promise s) (ensureFunction callback1) t1)]).
  destruct (invoke_permitted v2 data2 callback2 url s1 Hv2 Hin2 Hopt Huri)
    as (u2 & p2 & req2 & t2 & _ & _ & Hreq2 & _ & Hrun2).
  eexists req1, _, req2, _. split.
  { unfold bind. rewrite Hrun1. fold s1. rewrite Hrun2.
    unfold after_promise, s1; simpl. by rewrite <- app_assoc. }
  destruct (verb_request_shape _ _ _ _ _ _ Hreq1) as (Hm1 & Hu1 & _ & _).
  destruct (verb_request_shape _ _ _ _ _ _ Hreq2) as (Hm2 & Hu2 & _ & _).
  by simpl.
Qed.


(** X11. [then] submits the request that [get] submits and chains the callback
    to the promise of that request. The callback is not handed to the
    request: whatever the transport answers, the handler of the request
    calls no function of the caller, it only settles the promise (or
    throws on a missing response). *)
Theorem then_bypasses_the_node_callback (callback url : JsVal) (s : Store T) :
  "get" ∈ _supportedMethods (fields (this s)) →
  generateRequestUri (this s) = Normal url →
  ∃ h,
    then_ callback s
    = (Normal (mkChained (JPromise (next_promise s)) callback),
       after_promise s [EvEnd (Agent.get url) h]) ∧
    get JUndefined s
    = (Normal (JPromise (next_promise s)),
       after_promise s [EvEnd (Agent.get url) h]) ∧
    ∀ (err result : JsVal) (s' : Store T),
      ∃ out evs,
        end_callback h err result s' = (out, after s' evs) ∧
        ∀ e, e ∈ evs → is_call e = false.
Proof.
  intros Hin Huri.
  assert (get JUndefined s
          = (Normal (JPromise (next_promise s)),
             after_promise s
               [EvEnd (Agent.get url)
                  (mkHandler (next_promise s) noop returnBody)])) as Hget.
  { unfold get, bind. rewrite checkMethodSupport_supported by done.
    unfold this_generateRequestUri, bind, read, lift. by rewrite Huri. }
  eexists. split; [|split; [exact Hget|]].
  { unfold then_, bind. by rewrite Hget. }
  intros err result s'.
  assert (s' = after s' []) as Hs'.
  { destruct s'; unfold after; simpl. by rewrite app_nil_r. }
  destruct (returnBody result) as [value|e] eqn:Hvalue.
  - pose proof (get_prop_Normal_nullish _ _ _ Hvalue) as Hres.
    destruct (get_prop_defined result "error" Hres) as [re Hre].
    eexists _, _. split.
    + by apply (end_callback_settles _ JUndefined err result value re).
    + simpl. intros e He. apply list_elem_of_singleton in He as ->.
      by destruct (truthy (js_or err re)).
  - exists (Throw e), []. split.
    + rewrite <- Hs'. by apply end_callback_transform_throws.
    + intros e' He'. by apply elem_of_nil in He'.
Qed.

End Conduct.

(** ** Objects made by the constructor *)

(** X12. The constructor keeps truthy options and puts an empty object in the
    place of anything falsy, so that the stored options can always be read;
    and it permits the six verbs, no other name. *)
Theorem constructor_defaults (options : JsVal) :
  WPRequest._options (WPRequest.WPRequest options)
  = (if truthy options then options else JObject ∅) ∧
  nullish (WPRequest._options (WPRequest.WPRequest options)) = false ∧
  ∀ name,
    name ∈ WPRequest._supportedMethods (WPRequest.WPRequest options)
      ↔ ∃ v, WPRequest.verb_name v = name.
Proof.
  split; [done|]. split; [apply WPRequest_options_defined|].
  intros name. simpl. split.
  - intros Hin. repeat (apply elem_of_cons in Hin as [->|Hin]).
    + by exists WPRequest.Head.
    + by exists WPRequest.Get.
    + by exists WPRequest.Put.
    + by exists WPRequest.Post.
    + by exists WPRequest.Patch.
    + by exists WPRequest.Delete.
    + by apply elem_of_nil in Hin.
  - intros [v <-]. apply (bool_decide_unpack _). by destruct v.
Qed.

(** X13. On an object fresh from the constructor whose options give a string as
    the endpoint, whatever else they hold or lack, no verb method throws:
    [patch] returns [undefined] and the other five return a new promise
    and submit one request to that endpoint. *)
Theorem fresh_request_accepts_every_verb
    (options data callback : JsVal) (url : string)
    (v : WPRequest.Verb) (n : nat) (tr : list Event) :
  get_prop (WPRequest._options (WPRequest.WPRequest options)) "endpoint"
  = Normal (JStr url) →
  ∃ n' evs,
    WPRequest.invoke v data callback (mkStore (WPRequest.WPRequest options) n tr)
    = (Normal (if v is WPRequest.Patch then JUndefined else JPromise n),
       mkStore (WPRequest.WPRequest options) n' (tr ++ evs)) ∧
    if v is WPRequest.Patch then evs = [] ∧ n' = n
    else ∃ req h, evs = [EvEnd req h] ∧ n' = S n ∧ Agent.url req = JStr url.
Proof.
  intros Huri.
  set (s := mkStore (WPRequest.WPRequest options) n tr).
  assert (WPRequest.verb_name v
            ∈ WPRequest._supportedMethods (WPRequest.fields (this s))) as Hin.
  { apply (bool_decide_unpack _). by destruct v. }
  destruct (decide (v = WPRequest.Patch)) as [->|Hv].
  { exists n, []. split; [|done]. simpl.
    rewrite (patch_permitted (H:=WPRequest.WPRequest_class) callback s Hin).
    unfold s. by rewrite app_nil_r. }
  pose proof (WPRequest_options_defined options) as Hopt.
  destruct (invoke_permitted (H:=WPRequest.WPRequest_class)
              v data callback (JStr url) s Hv Hin Hopt Huri)
    as (? & ? & req & transform & _ & _ & Hreq & _ & Hrun).
  destruct (verb_request_shape _ _ _ _ _ _ Hreq) as (_ & Hu & _ & _).
  exists (S n), [EvEnd req (mkHandler n (WPRequest.ensureFunction callback) transform)].
  split.
  - rewrite Hrun. by destruct v.
  - destruct v; try done; eauto.
Qed.

(** X14. Options that name an endpoint and no credentials do not stop [post],
    [put] and [delete]: the username and the password read as [undefined]
    and the request goes out with the header
    [Authorization: undefined:undefined]. *)
Theorem missing_credentials_send_undefined
    (v : WPRequest.Verb) (options : gmap string JsVal) (methods : list string)
    (data callback : JsVal) (url : string) (n : nat) (tr : list Event) :
  authenticated v = true →
  WPRequest.verb_name v ∈ methods →
  options !! "endpoint" = Some (JStr url) →
  options !! "username" = None →
  options !! "password" = None →
  ∃ req h,
    WPRequest.invoke v data callback
      (mkStore (WPRequest.mkFields (JObject options) methods) n tr)
    = (Normal (JPromise n),
       mkStore (WPRequest.mkFields (JObject options) methods) (S n)
         (tr ++ [EvEnd req h])) ∧
    Agent.url req = JStr url ∧
    Agent.header req !! "Authorization" = Some (JStr "undefined:undefined").
Proof.
  intros Hauth Hin Hend Huser Hpass.
  assert (v ≠ WPRequest.Patch) as Hv by (by intros ->).
  set (s := mkStore (WPRequest.mkFields (JObject options) methods) n tr).
  assert (WPRequest.generateRequestUri (this s) = Normal (JStr url)) as Huri.
  { simpl. unfold WPRequest.prototype_generateRequestUri; simpl. by rewrite Hend. }
  destruct (invoke_permitted (H:=WPRequest.WPRequest_class)
              v data callback (JStr url) s Hv Hin eq_refl Huri)
    as (username & password & req & transform & Hu & Hp & Hreq & _ & Hrun).
  simpl in Hu, Hp. rewrite Huser in Hu. rewrite Hpass in Hp. simpl in Hu, Hp.
  inversion Hu; subst username. inversion Hp; subst password.
  destruct (verb_request_shape _ _ _ _ _ _ Hreq) as (_ & Hurl & _ & Hhdr).
  eexists req, _. split; [exact Hrun|]. split; [done|].
  rewrite Hhdr by done. by rewrite Hauth.
Qed.

(** X15. When [_options] has been set to [null] or [undefined] from outside, a
    permitted verb other than [patch] passes the method check and then
    throws a TypeError on reading the endpoint, before anything is
    submitted. *)
Theorem unreadable_options_throw_TypeError
    (options data callback : JsVal) (methods : list string)
    (v : WPRequest.Verb) (n : nat) (tr : list Event) :
  nullish options = true →
  v ≠ WPRequest.Patch →
  WPRequest.verb_name v ∈ methods →
  ∃ message,
    WPRequest.invoke v data callback
      (mkStore (WPRequest.mkFields options methods) n tr)
    = (Throw (JError "TypeError" message),
       mkStore (WPRequest.mkFields options methods) n tr).
Proof.
  intros Hnull Hv Hin.
  set (s := mkStore (WPRequest.mkFields options methods) n tr).
  assert (∃ message,
            WPRequest.generateRequestUri (this s)
            = Throw (JError "TypeError" message)) as [message Huri].
  { simpl. unfold WPRequest.prototype_generateRequestUri. simpl.
    destruct options; try discriminate; simpl; eauto. }
  exists message.
  pose proof (checkMethodSupport_supported (H:=WPRequest.WPRequest_class)
                (WPRequest.verb_name v) s) as Hcheck.
  rewrite verb_name_lower in Hcheck. specialize (Hcheck Hin).
  destruct v; try done; simpl in Hcheck |- *;
    unfold WPRequest.get, WPRequest.post, WPRequest.put, WPRequest.delete,
      WPRequest.head, bind;
    rewrite Hcheck;
    unfold WPRequest.this_generateRequestUri, bind, read, lift;
    by rewrite Huri.
Qed.

(** ** The same at concrete objects *)

Lemma submitted_request_target_witness :
  ∃ req h,
    WPRequest.invoke WPRequest.Post JUndefined example_callback example_store
    = (Normal (JPromise 0), after_promise example_store [EvEnd req h]) ∧
    Some Agent.POST = Some (Agent.method req) ∧
    Agent.url req = JStr "/wp-json/" ∧
    ∀ field, field ≠ "Content-Type" →
      (is_Some (Agent.header req !! field) ↔ true = true ∧ field = "Authorization").
Proof.
  refine (submitted_request_target
            WPRequest.Post JUndefined example_callback "/wp-json/"
            example_store _ _ _ _).
  - discriminate.
  - apply (bool_decide_unpack _). vm_compute. exact I.
  - reflexivity.
  - reflexivity.
Defined.

Lemma payload_defaults_to_empty_object_witness :
  ∃ req h,
    WPRequest.invoke WPRequest.Post (JNum 0) example_callback example_store
    = (Normal (JPromise 0), after_promise example_store [EvEnd req h]) ∧
    Agent.data req = Some (JObject ∅).
Proof.
  refine (payload_defaults_to_empty_object
            WPRequest.Post (JNum 0) example_callback (JStr "/wp-json/")
            example_store _ _ _ _).
  - discriminate.
  - apply (bool_decide_unpack _). vm_compute. exact I.
  - reflexivity.
  - reflexivity.
Defined.

Lemma promise_rejected_iff_error_witness :
  ∃ req h,
    WPRequest.invoke WPRequest.Put JUndefined example_callback example_store
    = (Normal (JPromise 0), after_promise example_store [EvEnd req h]) ∧
    ∀ (err result : JsVal) (s' : Store WPRequest.Fields),
      nullish result = false →
      ∃ value re,
        get_prop result "body" = Normal value ∧
        get_prop result "error" = Normal re ∧
        WPRequest.end_callback h err result s'
        = (Normal tt,
           after s' (callback_calls example_callback [err; value] ++
                     [if truthy err then EvReject 0 err
                      else if truthy re then EvReject 0 re
                      else EvResolve 0 value])).
Proof.
  refine (promise_rejected_iff_error
            WPRequest.Put JUndefined example_callback (JStr "/wp-json/")
            example_store _ _ _ _).
  - discriminate.
  - apply (bool_decide_unpack _). vm_compute. exact I.
  - reflexivity.
  - reflexivity.
Defined.

Lemma missing_field_resolves_undefined_witness :
  ∃ req h,
    WPRequest.invoke WPRequest.Head JUndefined example_callback example_store
    = (Normal (JPromise 0), after_promise example_store [EvEnd req h]) ∧
    WPRequest.end_callback h JNull (JObject {["body" := JStr "ignored"]}) example_store
    = (Normal tt,
       after example_store
         (callback_calls example_callback [JNull; JUndefined] ++
          [EvResolve 0 JUndefined])).
Proof.
  refine (missing_field_resolves_undefined
            WPRequest.Head JUndefined example_callback (JStr "/wp-json/") JNull
            {["body" := JStr "ignored"]} example_store example_store
            _ _ _ _ _ _ _).
  - discriminate.
  - apply (bool_decide_unpack _). vm_compute. exact I.
  - reflexivity.
  - reflexivity.
  - reflexivity.
  - reflexivity.
  - reflexivity.
Defined.

Lemma capital_entries_never_match_witness :
  WPRequest._checkMethodSupport "get" shouting_store
  = (Throw (JError "Error" "Unsupported method; supported methods are: GET, Head"),
     shouting_store).
Proof.
  refine (capital_entries_never_match "get" shouting_store _).
  apply (bool_decide_unpack _). vm_compute. exact I.
Defined.

Lemma two_invocations_are_independent_witness :
  ∃ req1 h1 req2 h2,
    (WPRequest.invoke WPRequest.Get JUndefined example_callback ;;
     WPRequest.invoke WPRequest.Delete JUndefined JUndefined) example_store
    = (Normal (JPromise 1),
       mkStore (this example_store) 2 (trace example_store ++ [EvEnd req1 h1; EvEnd req2 h2])) ∧
    h_promise h1 = 0%nat ∧ h_promise h2 = 1%nat ∧
    h_callback h1 = WPRequest.ensureFunction example_callback ∧
    h_callback h2 = WPRequest.ensureFunction JUndefined ∧
    Some Agent.GET = Some (Agent.method req1) ∧
    Some Agent.DELETE = Some (Agent.method req2) ∧
    Agent.url req1 = JStr "/wp-json/" ∧ Agent.url req2 = JStr "/wp-json/".
Proof.
  refine (two_invocations_are_independent
            WPRequest.Get WPRequest.Delete JUndefined example_callback
            JUndefined JUndefined (JStr "/wp-json/") example_store _ _ _ _ _ _).
  - discriminate.
  - discriminate.
  - apply (bool_decide_unpack _). vm_compute. exact I.
  - apply (bool_decide_unpack _). vm_compute. exact I.
  - reflexivity.
  - reflexivity.
Defined.


Lemma then_bypasses_the_node_callback_witness :
  ∃ h,
    WPRequest.then_ example_callback example_store
    = (Normal (WPRequest.mkChained (JPromise 0) example_callback),
       after_promise example_store [EvEnd (Agent.get (JStr "/wp-json/")) h]) ∧
    WPRequest.get JUndefined example_store
    = (Normal (JPromise 0),
       after_promise example_store [EvEnd (Agent.get (JStr "/wp-json/")) h]) ∧
    ∀ (err result : JsVal) (s' : Store WPRequest.Fields),
      ∃ out evs,
        WPRequest.end_callback h err result s' = (out, after s' evs) ∧
        ∀ e, e ∈ evs → is_call e = false.
Proof.
  refine (then_bypasses_the_node_callback
            example_callback (JStr "/wp-json/") example_store _ _).
  - apply (bool_decide_unpack _). vm_compute. exact I.
  - reflexivity.
Defined.

Lemma fresh_request_accepts_every_verb_witness :
  ∃ n' evs,
    WPRequest.invoke WPRequest.Put JUndefined example_callback
      (mkStore (WPRequest.WPRequest test_options) 0 [])
    = (Normal (JPromise 0),
       mkStore (WPRequest.WPRequest test_options) n' ([] ++ evs)) ∧
    ∃ req h, evs = [EvEnd req h] ∧ n' = 1%nat ∧ Agent.url req = JStr "/wp-json/".
Proof.
  refine (fresh_request_accepts_every_verb
            test_options JUndefined example_callback "/wp-json/"
            WPRequest.Put 0 [] _).
  reflexivity.
Defined.

Lemma missing_credentials_send_undefined_witness :
  ∃ req h,
    WPRequest.invoke WPRequest.Delete JUndefined example_callback
      (mkStore (WPRequest.mkFields
                  (JObject (<["endpoint" := JStr "/wp-json/"]> ∅)) ["delete"]) 0 [])
    = (Normal (JPromise 0),
       mkStore (WPRequest.mkFields
                  (JObject (<["endpoint" := JStr "/wp-json/"]> ∅)) ["delete"]) 1
         ([] ++ [EvEnd req h])) ∧
    Agent.url req = JStr "/wp-json/" ∧
    Agent.header req !! "Authorization" = Some (JStr "undefined:undefined").
Proof.
  refine (missing_credentials_send_undefined
            WPRequest.Delete (<["endpoint" := JStr "/wp-json/"]> ∅) ["delete"]
            JUndefined example_callback "/wp-json/" 0 [] _ _ _ _ _).
  - reflexivity.
  - apply (bool_decide_unpack _). vm_compute. exact I.
  - reflexivity.
  - reflexivity.
  - reflexivity.
Defined.

Lemma unreadable_options_throw_TypeError_witness :
  ∃ message,
    WPRequest.invoke WPRequest.Get JUndefined example_callback null_options_store
    = (Throw (JError "TypeError" message), null_options_store).
Proof.
  refine (unreadable_options_throw_TypeError
            JNull JUndefined example_callback
            ["head"; "get"; "put"; "post"; "patch"; "delete"]
            WPRequest.Get 0 [] _ _ _).
  - reflexivity.
  - discriminate.
  - apply (bool_decide_unpack _). vm_compute. exact I.
Defined.

(** ** Misuse and repetition *)

Section Hazards.
Context {T : Type} `{WPRequest.RequestClass T}.
Import WPRequest.

(** X16. The handler of a request keeps no record of having run. If the
    transport calls it a second time, the callback is called a second time
    and the promise is settled again (which the promise ignores): nothing
    in the handler guards against it. *)
Theorem handler_is_not_guarded
    (v : Verb) (data callback url : JsVal) (s : Store T) :
  v ≠ Patch →
  verb_name v ∈ _supportedMethods (fields (this s)) →
  nullish (_options (fields (this s))) = false →
  generateRequestUri (this s) = Normal url →
  ∃ req h,
    invoke v data callback s
    = (Normal (JPromise (next_promise s)), after_promise s [EvEnd req h]) ∧
    ∀ (err result : JsVal) (s' : Store T) (evs : list Event),
      end_callback h err result s' = (Normal tt, after s' evs) →
      (end_callback h err result ;; end_callback h err result) s'
      = (Normal tt, after s' (evs ++ evs)).
Proof.
  intros Hv Hin Hopt Huri.
  destruct (invoke_permitted v data callback url s Hv Hin Hopt Huri)
    as (username & password & req & transform & _ & _ & _ & Htr & Hrun).
  eexists req, _. split; [exact Hrun|].
  intros err result s' evs Hfirst.
  destruct (transform result) as [value|e] eqn:Hvalue.
  2: { rewrite (end_callback_transform_throws _ err result e) in Hfirst by done.
       discriminate. }
  assert (nullish result = false) as Hres.
  { destruct v; simpl in Htr; inversion Htr; subst transform; try done;
      by eapply get_prop_Normal_nullish. }
  destruct (get_prop_defined result "error" Hres) as [re Hre].
  pose proof (end_callback_settles (T:=T)
                (mkHandler (next_promise s) (ensureFunction callback) transform)
                callback err result value re) as Hrule.
  simpl in Hrule.
  rewrite (Hrule s' eq_refl Hvalue Hre) in Hfirst.
  inversion Hfirst as [Hevs]. apply app_inv_head in Hevs. subst evs.
  unfold bind. rewrite (Hrule s' eq_refl Hvalue Hre).
  rewrite (Hrule _ eq_refl Hvalue Hre).
  unfold after; simpl. by rewrite <- app_assoc.
Qed.

(** X17. [post] and [put] take the payload first. Called with the callback
    alone, they send the function as the payload and have no callback:
    whatever the transport answers, the function is never called. *)
Theorem callback_in_the_place_of_data
    (v : Verb) (f : string) (url : JsVal) (s : Store T) :
  takes_data v = true →
  verb_name v ∈ _supportedMethods (fields (this s)) →
  nullish (_options (fields (this s))) = false →
  generateRequestUri (this s) = Normal url →
  ∃ req h,
    invoke v (JFunction (Caller f)) JUndefined s
    = (Normal (JPromise (next_promise s)), after_promise s [EvEnd req h]) ∧
    Agent.data req = Some (JFunction (Caller f)) ∧
    ∀ (err result : JsVal) (s' : Store T),
      ∃ out evs,
        end_callback h err result s' = (out, after s' evs) ∧
        ∀ e, e ∈ evs → is_call e = false.
Proof.
  intros Hdata Hin Hopt Huri.
  assert (v ≠ Patch) as Hv by (by intros ->).
  destruct (invoke_permitted v (JFunction (Caller f)) JUndefined url s Hv Hin Hopt Huri)
    as (username & password & req & transform & _ & _ & Hreq & Htr & Hrun).
  eexists req, _. split; [exact Hrun|]. split.
  { destruct v; try discriminate; simpl in Hreq; inversion Hreq; done. }
  intros err result s'.
  assert (s' = after s' []) as Hs'.
  { destruct s'; unfold after; simpl. by rewrite app_nil_r. }
  destruct (transform result) as [value|e] eqn:Hvalue.
  - assert (nullish result = false) as Hres.
    { destruct v; simpl in Htr; inversion Htr; subst transform; try done;
        by eapply get_prop_Normal_nullish. }
    destruct (get_prop_defined result "error" Hres) as [re Hre].
    eexists _, _. split.
    + by apply (end_callback_settles _ JUndefined err result value re).
    + simpl. intros e He. apply list_elem_of_singleton in He as ->.
      by destruct (truthy (js_or err re)).
  - exists (Throw e), []. split.
    + rewrite <- Hs'. by apply end_callback_transform_throws.
    + intros e' He'. by apply elem_of_nil in He'.
Qed.

End Hazards.

(** X18. The header joins username and password with a colon and escapes
    nothing: a colon inside either of them moves the boundary. A username
    [u:x] with password [p] and a username [u] with password [x:p] make
    [post], [put] and [delete] submit the very same request. *)
Theorem credentials_are_not_delimited
    (v : WPRequest.Verb) (u x p : string) (options : gmap string JsVal)
    (methods : list string) (data callback : JsVal) (n : nat) (tr : list Event) :
  authenticated v = true →
  WPRequest.verb_name v ∈ methods →
  ∃ out evs,
    WPRequest.invoke v data callback
      (mkStore (WPRequest.mkFields
                  (JObject (<["username" := JStr (u ++ ":" ++ x)]>
                           (<["password" := JStr p]> options))) methods) n tr)
    = (out,
       mkStore (WPRequest.mkFields
                  (JObject (<["username" := JStr (u ++ ":" ++ x)]>
                           (<["password" := JStr p]> options))) methods)
         (S n) (tr ++ evs)) ∧
    WPRequest.invoke v data callback
      (mkStore (WPRequest.mkFields
                  (JObject (<["username" := JStr u]>
                           (<["password" := JStr (x ++ ":" ++ p)]> options))) methods) n tr)
    = (out,
       mkStore (WPRequest.mkFields
                  (JObject (<["username" := JStr u]>
                           (<["password" := JStr (x ++ ":" ++ p)]> options))) methods)
         (S n) (tr ++ evs)) ∧
    ∃ req h, evs = [EvEnd req h] ∧
      Agent.header req !! "Authorization" = Some (JStr (u ++ ":" ++ x ++ ":" ++ p)).
Proof.
  intros Hauth Hin.
  assert (v ≠ WPRequest.Patch) as Hv by (by intros ->).
  set (o1 := <["username" := JStr (u ++ ":" ++ x)]> (<["password" := JStr p]> options)).
  set (o2 := <["username" := JStr u]> (<["password" := JStr (x ++ ":" ++ p)]> options)).
  set (url := default JUndefined (options !! "endpoint")).
  pose proof (invoke_permitted (H:=WPRequest.WPRequest_class) v data callback url
                (mkStore (WPRequest.mkFields (JObject o1) methods) n tr) Hv) as Hrun1.
  pose proof (invoke_permitted (H:=WPRequest.WPRequest_class) v data callback url
                (mkStore (WPRequest.mkFields (JObject o2) methods) n tr) Hv) as Hrun2.
  simpl in Hrun1, Hrun2.
  unfold WPRequest.prototype_generateRequestUri in Hrun1, Hrun2. simpl in Hrun1, Hrun2.
  assert (o1 !! "endpoint" = options !! "endpoint") as He1
    by (unfold o1; by rewrite !lookup_insert_ne).
  assert (o2 !! "endpoint" = options !! "endpoint") as He2
    by (unfold o2; by rewrite !lookup_insert_ne).
  assert (o1 !! "username" = Some (JStr (u ++ ":" ++ x))) as Hu1
    by (unfold o1; by rewrite lookup_insert_eq).
  assert (o2 !! "username" = Some (JStr u)) as Hu2
    by (unfold o2; by rewrite lookup_insert_eq).
  assert (o1 !! "password" = Some (JStr p)) as Hp1
    by (unfold o1; rewrite lookup_insert_ne by done; by rewrite lookup_insert_eq).
  assert (o2 !! "password" = Some (JStr (x ++ ":" ++ p))) as Hp2
    by (unfold o2; rewrite lookup_insert_ne by done; by rewrite lookup_insert_eq).
  rewrite He1, Hu1, Hp1 in Hrun1. rewrite He2, Hu2, Hp2 in Hrun2.
  destruct (Hrun1 Hin eq_refl eq_refl)
    as (u1 & p1 & req1 & t1 & Hu1' & Hp1' & Hreq1 & Ht1 & Hinv1).
  destruct (Hrun2 Hin eq_refl eq_refl)
    as (u2 & p2 & req2 & t2 & Hu2' & Hp2' & Hreq2 & Ht2 & Hinv2).
  simpl in Hu1', Hp1', Hu2', Hp2'.
  inversion Hu1'; inversion Hp1'; inversion Hu2'; inversion Hp2'; subst.
  assert (t2 = t1) as -> by congruence.
  assert (js_plus (js_plus (JStr (u ++ ":" ++ x)) (JStr ":")) (JStr p)
          = JStr (u ++ ":" ++ x ++ ":" ++ p)) as Ha1.
  { unfold js_plus; simpl. by rewrite !string_app_assoc. }
  assert (js_plus (js_plus (JStr u) (JStr ":")) (JStr (x ++ ":" ++ p))
          = JStr (u ++ ":" ++ x ++ ":" ++ p)) as Ha2.
  { unfold js_plus; simpl. by rewrite !string_app_assoc. }
  assert (req2 = req1 ∧
          Agent.header req1 !! "Authorization" = Some (JStr (u ++ ":" ++ x ++ ":" ++ p)))
    as [-> Hhdr].
  { destruct (verb_request_shape _ _ _ _ _ _ Hreq1) as (_ & _ & _ & Hh1).
    rewrite (Hh1 "Authorization") by done. rewrite Hauth, Ha1; simpl.
    split; [|done].
    destruct v; try discriminate; simpl in Hreq1, Hreq2;
      rewrite Ha1 in Hreq1; rewrite Ha2 in Hreq2; congruence. }
  eexists _, _. split; [exact Hinv1|]. split; [exact Hinv2|].
  eexists _, _. split; [reflexivity | exact Hhdr].
Qed.

Lemma handler_is_not_guarded_witness :
  ∃ req h,
    WPRequest.invoke WPRequest.Get JUndefined example_callback example_store
    = (Normal (JPromise 0), after_promise example_store [EvEnd req h]) ∧
    ∀ (err result : JsVal) (s' : Store WPRequest.Fields) (evs : list Event),
      WPRequest.end_callback h err result s' = (Normal tt, after s' evs) →
      (WPRequest.end_callback h err result ;; WPRequest.end_callback h err result) s'
      = (Normal tt, after s' (evs ++ evs)).
Proof.
  refine (handler_is_not_guarded
            WPRequest.Get JUndefined example_callback (JStr "/wp-json/")
            example_store _ _ _ _).
  - discriminate.
  - apply (bool_decide_unpack _). vm_compute. exact I.
  - reflexivity.
  - reflexivity.
Defined.

Lemma callback_in_the_place_of_data_witness :
  ∃ req h,
    WPRequest.invoke WPRequest.Post (JFunction (Caller "done")) JUndefined example_store
    = (Normal (JPromise 0), after_promise example_store [EvEnd req h]) ∧
    Agent.data req = Some (JFunction (Caller "done")) ∧
    ∀ (err result : JsVal) (s' : Store WPRequest.Fields),
      ∃ out evs,
        WPRequest.end_callback h err result s' = (out, after s' evs) ∧
        ∀ e, e ∈ evs → is_call e = false.
Proof.
  refine (callback_in_the_place_of_data
            WPRequest.Post "done" (JStr "/wp-json/") example_store _ _ _ _).
  - reflexivity.
  - apply (bool_decide_unpack _). vm_compute. exact I.
  - reflexivity.
  - reflexivity.
Defined.

Lemma credentials_are_not_delimited_witness :
  ∃ out evs,
    WPRequest.invoke WPRequest.Delete JUndefined example_callback
      (mkStore (WPRequest.mkFields
                  (JObject (<["username" := JStr ("a" ++ ":" ++ "b")]>
                           (<["password" := JStr "c"]> ∅))) ["delete"]) 0 [])
    = (out,
       mkStore (WPRequest.mkFields
                  (JObject (<["username" := JStr ("a" ++ ":" ++ "b")]>
                           (<["password" := JStr "c"]> ∅))) ["delete"])
         1 ([] ++ evs)) ∧
    WPRequest.invoke WPRequest.Delete JUndefined example_callback
      (mkStore (WPRequest.mkFields
                  (JObject (<["username" := JStr "a"]>
                           (<["password" := JStr ("b" ++ ":" ++ "c")]> ∅))) ["delete"]) 0 [])
    = (out,
       mkStore (WPRequest.mkFields
                  (JObject (<["username" := JStr "a"]>
                           (<["password" := JStr ("b" ++ ":" ++ "c")]> ∅))) ["delete"])
         1 ([] ++ evs)) ∧
    ∃ req h, evs = [EvEnd req h] ∧
      Agent.header req !! "Authorization" = Some (JStr ("a" ++ ":" ++ "b" ++ ":" ++ "c")).
Proof.
  refine (credentials_are_not_delimited
            WPRequest.Delete "a" "b" "c" ∅ ["delete"] JUndefined example_callback 0 []
            _ _).
  - reflexivity.
  - apply (bool_decide_unpack _). vm_compute. exact I.
Defined.
